(** * Endpoint generation of the DNS operator (api/v1alpha1/dnsrecord_endpoints.go)

    A shallow embedding of [Routing], [Routing.Validate], [Routing.getWeight]
    and [GenerateEndpoints] with the helpers they call, followed by the
    properties of the endpoint generation engine.

    Conventions of the embedding:
    - a Go [string] is a [string] (a sequence of bytes), compared bytewise;
    - a Go [int] or [TTL] is a [Z]; no arithmetic is done on them;
    - a Go [map[string]string] that may be [nil] is an
      [option (gmap string string)], [None] being [nil];
    - a Go [error] is its message, [None] (or [Ok]) being the [nil] error;
    - a [for ... range] over a map visits the entries in an order the Go
      runtime picks afresh at every execution: the sequence of entries one
      execution visits is an explicit argument ([mapRange]) of the functions
      that loop over the address map, tied to the map by [rangesOver]. *)

From Stdlib Require Import ZArith String Ascii List DecimalString DecimalZ DecimalPos Sorted
  OrderedTypeEx Lia.
From stdpp Require Import gmap strings list fin_maps sorting.

Local Open Scope Z_scope.
Local Open Scope string_scope.
Local Open Scope list_scope.

(** ** The Go standard library functions the code calls *)

Module Go.

(** [strings.HasPrefix]. *)
Definition HasPrefix (s pre : string) : bool := String.prefix pre s.

Definition lowerByte (c : ascii) : ascii :=
  let n := N_of_ascii c in
  if ((65 <=? n) && (n <=? 90))%N then ascii_of_N (n + 32) else c.

(** [strings.ToLower] on ASCII text: the bytes 'A'..'Z' are mapped to
    'a'..'z', every other byte is kept.  On text with bytes above 127 the
    library applies the Unicode case mapping, which this function does not
    follow: names derived from such text are outside the embedding. *)
Fixpoint ToLower (s : string) : string :=
  match s with
  | EmptyString => EmptyString
  | String c s' => String (lowerByte c) (ToLower s')
  end.

(** [strings.Replace s old new (-1)] for a non-empty [old]: every
    non-overlapping occurrence of [old], found from the left, is replaced.
    [skip] counts the bytes of an occurrence still to be dropped. *)
Fixpoint replaceFrom (old new : string) (skip : nat) (s : string) : string :=
  match s with
  | EmptyString => EmptyString
  | String c s' =>
      match skip with
      | S k => replaceFrom old new k s'
      | O =>
          if String.prefix old s
          then new +:+ replaceFrom old new (Nat.pred (String.length old)) s'
          else String c (replaceFrom old new O s')
      end
  end.

Definition ReplaceAll (s old new : string) : string := replaceFrom old new O s.

(** [strconv.Itoa]. *)
Definition Itoa (i : Z) : string := NilZero.string_of_int (Z.to_int i).

(** [strings.Split s sep] for a one-byte separator. *)
Fixpoint splitAcc (sep : ascii) (cur : string) (s : string) : list string :=
  match s with
  | EmptyString => [cur]
  | String c s' =>
      if Ascii.eqb c sep then cur :: splitAcc sep EmptyString s'
      else splitAcc sep (cur +:+ String c EmptyString) s'
  end.

Definition Split (s : string) (sep : ascii) : list string := splitAcc sep EmptyString s.

Section Sort.
Context {A : Type} (less : A → A → bool).

(** The inner loop of the insertion sort: [x] sits right after the
    already sorted prefix, given here last element first, and is swapped
    leftwards while it is less than its left neighbour. *)
Fixpoint bubble (x : A) (rprefix : list A) : list A :=
  match rprefix with
  | [] => [x]
  | y :: t => if less x y then y :: bubble x t else x :: y :: t
  end.

(** [sort.Slice data less].  The library runs this insertion sort on
    slices of fewer than 12 elements and a pattern-defeating quicksort on
    longer ones; both return a permutation of [data] in which no element
    is less than an earlier one, which is all the properties below use. *)
Definition Slice (data : list A) : list A :=
  rev (fold_left (λ acc x, bubble x acc) data []).
End Sort.

End Go.

(** ** Label selectors of k8s.io/apimachinery, as far as [getWeight] uses them *)

Module labels.

(** [metav1.LabelSelectorRequirement]. *)
Record LabelSelectorRequirement := {
  Key : string;
  Operator : string;
  Values : list string
}.

(** [metav1.LabelSelector]; [None] is a [nil] map or slice. *)
Record LabelSelector := {
  MatchLabels : option (gmap string string);
  MatchExpressions : option (list LabelSelectorRequirement)
}.

(** [selection.Operator], the values [LabelSelectorAsSelector] produces. *)
Inductive Op := OpIn | OpNotIn | OpEquals | OpExists | OpDoesNotExist.

(** [labels.Requirement]. *)
Record Requirement := { key : string; operator : Op; strValues : list string }.

(** [labels.Selector]: the conjunction of its requirements. *)
Definition Selector := list Requirement.

Definition between (lo hi : N) (c : ascii) : bool :=
  let n := N_of_ascii c in ((lo <=? n) && (n <=? hi))%N.

Definition isDigit := between 48 57.
Definition isLowerAlpha := between 97 122.
Definition isUpperAlpha := between 65 90.

(** [[A-Za-z0-9]] *)
Definition qnameChar (c : ascii) : bool := isUpperAlpha c || isLowerAlpha c || isDigit c.
(** [[-A-Za-z0-9_.]] *)
Definition qnameExtChar (c : ascii) : bool :=
  qnameChar c || Ascii.eqb c "-" || Ascii.eqb c "_" || Ascii.eqb c ".".
(** [[a-z0-9]] *)
Definition dnsChar (c : ascii) : bool := isLowerAlpha c || isDigit c.
(** [[-a-z0-9]] *)
Definition dnsExtChar (c : ascii) : bool := dnsChar c || Ascii.eqb c "-".

(** A non-empty text whose first and last bytes are in [edge] and whose
    bytes are all in [inner]: the regular expressions
    [(edge inner* )? edge]. *)
Definition edgesAndInner (edge inner : ascii → bool) (s : string) : bool :=
  match list_ascii_of_string s with
  | [] => false
  | c :: cs => edge c && edge (List.last cs c) && forallb inner (c :: cs)
  end.

(** [validation.IsDNS1123Subdomain] reports no error. *)
Definition IsDNS1123Subdomain (s : string) : bool :=
  (String.length s <=? 253)%nat
  && forallb (edgesAndInner dnsChar dnsExtChar) (Go.Split s ".").

(** [validation.IsQualifiedName] reports no error. *)
Definition IsQualifiedName (s : string) : bool :=
  match Go.Split s "/" with
  | [name] =>
      (String.length name <=? 63)%nat && edgesAndInner qnameChar qnameExtChar name
  | [pre; name] =>
      IsDNS1123Subdomain pre
      && (String.length name <=? 63)%nat && edgesAndInner qnameChar qnameExtChar name
  | _ => false
  end.

(** [validation.IsValidLabelValue] reports no error. *)
Definition IsValidLabelValue (s : string) : bool :=
  (String.length s <=? 63)%nat
  && (String.eqb s "" || edgesAndInner qnameChar qnameExtChar s).

(** [labels.NewRequirement]: [None] when it returns an error. *)
Definition NewRequirement (k : string) (op : Op) (vals : list string) : option Requirement :=
  let countOk :=
    match op with
    | OpIn | OpNotIn => negb (length vals =? 0)%nat
    | OpEquals => (length vals =? 1)%nat
    | OpExists | OpDoesNotExist => (length vals =? 0)%nat
    end in
  if IsQualifiedName k && countOk && forallb IsValidLabelValue vals
  then Some {| key := k; operator := op; strValues := vals |}
  else None.

(** The operator switch of [LabelSelectorAsSelector]. *)
Definition operatorOf (o : string) : option Op :=
  if String.eqb o "In" then Some OpIn
  else if String.eqb o "NotIn" then Some OpNotIn
  else if String.eqb o "Exists" then Some OpExists
  else if String.eqb o "DoesNotExist" then Some OpDoesNotExist
  else None.

Definition requirementOfExpr (e : LabelSelectorRequirement) : option Requirement :=
  match operatorOf (Operator e) with
  | Some op => NewRequirement (Key e) op (Values e)
  | None => None
  end.

(** All the elements converted, or [None] as soon as one fails. *)
Fixpoint collect {A B} (f : A → option B) (l : list A) : option (list B) :=
  match l with
  | [] => Some []
  | x :: t =>
      match f x with
      | Some y => match collect f t with Some ys => Some (y :: ys) | None => None end
      | None => None
      end
  end.

(** [metav1.LabelSelectorAsSelector] of a non-nil selector: [None] when it
    returns an error.  A selector without any label or expression selects
    everything.  The requirements of the match labels come in the order of
    [map_to_list]; neither the error nor [Matches] depends on that order. *)
Definition LabelSelectorAsSelector (ps : LabelSelector) : option Selector :=
  let ml := map_to_list (default ∅ (MatchLabels ps)) in
  let me := default [] (MatchExpressions ps) in
  if (length ml + length me =? 0)%nat then Some []
  else
    match collect (λ kv, NewRequirement kv.1 OpEquals [kv.2]) ml with
    | None => None
    | Some r1 =>
        match collect requirementOfExpr me with
        | None => None
        | Some r2 => Some (r1 ++ r2)%list
        end
    end.

Definition hasValue (r : Requirement) (v : string) : bool :=
  existsb (String.eqb v) (strValues r).

(** [Requirement.Matches] against [labels.Set ls]. *)
Definition reqMatches (ls : option (gmap string string)) (r : Requirement) : bool :=
  match operator r, default ∅ ls !! key r with
  | (OpIn | OpEquals), Some v => hasValue r v
  | (OpIn | OpEquals), None => false
  | OpNotIn, Some v => negb (hasValue r v)
  | OpNotIn, None => true
  | OpExists, Some _ => true
  | OpExists, None => false
  | OpDoesNotExist, Some _ => false
  | OpDoesNotExist, None => true
  end.

(** [Selector.Matches]. *)
Definition Matches (sel : Selector) (ls : option (gmap string string)) : bool :=
  forallb (reqMatches ls) sel.

End labels.

(** ** external-dns endpoints *)

(** [externaldns.Endpoint], with the fields the generator sets; the
    provider-specific properties are the slice of name/value pairs. *)
Record Endpoint := {
  DNSName : string;
  Targets : list string;
  RecordType : string;
  SetIdentifier : string;
  RecordTTL : Z;
  ProviderSpecific : list (string * string)
}.

(** The loop of [Endpoint.SetProviderSpecificProperty]: the value of an
    existing property is overwritten, a new property is appended. *)
Fixpoint setProperty (name value : string) (ps : list (string * string)) : list (string * string) :=
  match ps with
  | [] => [(name, value)]
  | p :: t => if String.eqb p.1 name then (name, value) :: t else p :: setProperty name value t
  end.

Definition SetProviderSpecificProperty (e : Endpoint) (name value : string) : Endpoint :=
  {| DNSName := DNSName e; Targets := Targets e; RecordType := RecordType e;
     SetIdentifier := SetIdentifier e; RecordTTL := RecordTTL e;
     ProviderSpecific := setProperty name value (ProviderSpecific e) |}.

(** [Endpoint.GetProviderSpecificProperty]. *)
Fixpoint getProperty (name : string) (ps : list (string * string)) : option string :=
  match ps with
  | [] => None
  | p :: t => if String.eqb p.1 name then Some p.2 else getProperty name t
  end.

(** ** Constants *)

Definition SimpleRoutingStrategy : string := "simple".
Definition LoadBalancedRoutingStrategy : string := "loadbalanced".
Definition IPAddressType : string := "IPAddress".
Definition HostnameAddressType : string := "Hostname".
Definition DefaultTTL : Z := 60.
Definition DefaultCnameTTL : Z := 300.
Definition ClusterIDLength : nat := 6.
Definition LabelLBAttributeGeoCode : string := "kuadrant.io/lb-attribute-geo-code".

(** Modelled from the spec: the record types [ARecordType] and
    [CNAMERecordType] are declared outside the files at hand; the records
    are of type A or CNAME. *)
Definition ARecordType : string := "A".
Definition CNAMERecordType : string := "CNAME".

(** Modelled from the spec: the constant [DefaultGeo], the sentinel geo code
    of an object without the geo label, is declared outside the files at
    hand; its value is the one the unit tests of the generator observe as
    set identifier of the record of an unlabelled object. *)
Definition DefaultGeo : string := "default".

(** Modelled from the spec: the constants [WildcardGeo],
    [ProviderSpecificWeight] and [ProviderSpecificGeoCode] are declared
    outside the files at hand; the property vocabulary is fixed to [weight]
    and [geo-code], and ["*"] denotes the wildcard geo. *)
Definition WildcardGeo : string := "*".
Definition ProviderSpecificWeight : string := "weight".
Definition ProviderSpecificGeoCode : string := "geo-code".

(** ** Routing *)

Record CustomWeight := {
  Weight : Z;
  Selector : labels.LabelSelector
}.

(** [Routing] holds all necessary information to generate endpoints.  A nil
    and an empty [CustomWeights] slice behave alike everywhere. *)
Record Routing := {
  Addresses : option (gmap string string);
  Strategy : string;
  DefaultGeoCode : string;
  DefaultWeight : Z;
  CustomWeights : list CustomWeight;
  ClusterID : string
}.

(** [types.NamespacedName]. *)
Record NamespacedName := { Namespace : string; Name : string }.

(** The result of [GenerateEndpoints]: the endpoints with a nil error, or
    the error with nil endpoints. *)
Inductive result :=
| Ok (endpoints : list Endpoint)
| Err (msg : string).

(** The entries one execution of [for key, value := range m] visits. *)
Abbreviation mapRange := (list (string * string)).

(** [ord] is a sequence in which a [range] loop may visit the map [m]:
    every entry once, in any order; no entry for a nil map. *)
Definition rangesOver (m : option (gmap string string)) (ord : mapRange) : Prop :=
  ord ≡ₚ map_to_list (default ∅ m).

(** Modelled from the spec: [hash.ToBase36HashLen] of internal/common/hash,
    the deterministic fixed-length base-36 short code of a name, is left
    open; the generator is defined for any such function. *)
Class ShortCoder := ToBase36HashLen : string → nat → string.

(** The loop over the custom weights of [Validate]. *)
Fixpoint validateCustomWeights (cws : list CustomWeight) : option string :=
  match cws with
  | [] => None
  | customWeight :: rest =>
      if Z.eqb (Weight customWeight) 0 then Some "custom weight cannot be zero"
      else
        match labels.MatchLabels (Selector customWeight),
              labels.MatchExpressions (Selector customWeight) with
        | None, None => Some "custom weight must define non-empty selector"
        | _, _ => validateCustomWeights rest
        end
  end.

(** [Routing.Validate]: [None] is the nil error. *)
Definition Validate (r : Routing) : option string :=
  if String.eqb (Strategy r) SimpleRoutingStrategy then None
  else if String.eqb (Strategy r) "" || negb (bool_decide (is_Some (Addresses r)))
  then Some "must provide addresses"
  else if String.eqb (ClusterID r) "" then Some "cluster ID is required"
  else if Z.eqb (DefaultWeight r) 0 then Some "default weight is required"
  else if String.eqb (DefaultGeoCode r) "" then Some "default geocode is required"
  else validateCustomWeights (CustomWeights r).

(** The loop of [Routing.getWeight], [weight] being the default weight. *)
Fixpoint weightFrom (weight : Z) (cws : list CustomWeight)
    (objectLabels : option (gmap string string)) : Z :=
  match cws with
  | [] => weight
  | customWeight :: rest =>
      match labels.LabelSelectorAsSelector (Selector customWeight) with
      | None => weight
      | Some selector =>
          if labels.Matches selector objectLabels then Weight customWeight
          else weightFrom weight rest objectLabels
      end
  end.

Definition getWeight (r : Routing) (objectLabels : option (gmap string string)) : Z :=
  weightFrom (DefaultWeight r) (CustomWeights r) objectLabels.

(** [targetsFromAddresses], over the entries in the order the loop visits
    them: the keys typed ["IPAddress"], and all the other keys. *)
Fixpoint targetsFromAddresses (addresses : mapRange) : list string * list string :=
  match addresses with
  | [] => ([], [])
  | (key, value) :: rest =>
      let '(ipValues, hostValues) := targetsFromAddresses rest in
      if String.eqb value "IPAddress" then (key :: ipValues, hostValues)
      else (ipValues, key :: hostValues)
  end.

Definition createEndpoint (dnsName : string) (targets : list string) (recordType : string)
    (setIdentifier : string) (recordTTL : Z) : Endpoint :=
  {| DNSName := dnsName; Targets := targets; RecordType := recordType;
     SetIdentifier := setIdentifier; RecordTTL := recordTTL; ProviderSpecific := [] |}.

Definition getSetID (endpoint : Endpoint) : string :=
  DNSName endpoint +:+ SetIdentifier endpoint.

Definition isWildCardHost (host : string) : bool := Go.HasPrefix host "*".

Definition getGeoFromLabel (objectLabels : option (gmap string string)) : string :=
  match default ∅ objectLabels !! LabelLBAttributeGeoCode with
  | Some geoCode => geoCode
  | None => DefaultGeo
  end.

(** [getSimpleEndpoints]. *)
Definition getSimpleEndpoints (addresses : mapRange) (hostname : string) : list Endpoint :=
  let '(ipValues, hostValues) := targetsFromAddresses addresses in
  (if (0 <? length ipValues)%nat
   then [createEndpoint hostname ipValues ARecordType "" DefaultTTL] else [])
  ++ (if (0 <? length hostValues)%nat
      then [createEndpoint hostname hostValues CNAMERecordType "" DefaultTTL] else []).

(** The names of [getLoadBalancedEndpoints]. *)
Definition cnameHostOf (hostname : string) : string :=
  if isWildCardHost hostname then Go.ReplaceAll hostname "*." "" else hostname.

Definition lbNameOf (hostname : string) : string :=
  Go.ToLower ("klb." +:+ cnameHostOf hostname).

Definition geoLbNameOf (geoCode lbName : string) : string :=
  Go.ToLower (geoCode +:+ "." +:+ lbName).

Section Generator.
Context `{ShortCoder}.

Definition getShortCode (name : string) : string := ToBase36HashLen name ClusterIDLength.

Definition clusterLbNameOf (namespacedName : NamespacedName) (routing : Routing)
    (lbName : string) : string :=
  Go.ToLower (getShortCode (ClusterID routing) +:+ "-"
              +:+ getShortCode (Name namespacedName +:+ "-" +:+ Namespace namespacedName)
              +:+ "." +:+ lbName).

(** [getLoadBalancedEndpoints]; [addresses] is the order in which the
    loop of [targetsFromAddresses] visits [routing.Addresses]. *)
Definition getLoadBalancedEndpoints (addresses : mapRange) (namespacedName : NamespacedName)
    (objectLabels : option (gmap string string)) (routing : Routing) (hostname : string)
    : list Endpoint :=
  let lbName := lbNameOf hostname in
  let geoCode := getGeoFromLabel objectLabels in
  let geoLbName := geoLbNameOf geoCode lbName in
  let '(ipValues, hostValues) := targetsFromAddresses addresses in
  let clusterLbName := clusterLbNameOf namespacedName routing lbName in
  let endpoints :=
    if (0 <? length ipValues)%nat
    then [createEndpoint clusterLbName ipValues ARecordType "" DefaultTTL] else [] in
  let hostValues :=
    if (0 <? length ipValues)%nat then (hostValues ++ [clusterLbName])%list else hostValues in
  let endpoints :=
    (endpoints ++
     List.map (λ hostValue,
       SetProviderSpecificProperty
         (createEndpoint geoLbName [hostValue] CNAMERecordType hostValue DefaultTTL)
         ProviderSpecificWeight (Go.Itoa (getWeight routing objectLabels))) hostValues)%list in
  if (length endpoints =? 0)%nat then endpoints
  else
    let endpoint := createEndpoint lbName [geoLbName] CNAMERecordType geoCode DefaultCnameTTL in
    let endpoint :=
      if negb (String.eqb geoCode DefaultGeo)
      then SetProviderSpecificProperty endpoint ProviderSpecificGeoCode geoCode
      else endpoint in
    let endpoints := (endpoints ++ [endpoint])%list in
    let endpoints :=
      if String.eqb geoCode (DefaultGeoCode routing)
      then (endpoints ++
            [SetProviderSpecificProperty
               (createEndpoint lbName [geoLbName] CNAMERecordType "default" DefaultCnameTTL)
               ProviderSpecificGeoCode WildcardGeo])%list
      else endpoints in
    (endpoints ++ [createEndpoint hostname [lbName] CNAMERecordType "" DefaultCnameTTL])%list.

(** The comparison handed to [sort.Slice]. *)
Definition lessSetID (a b : Endpoint) : bool := String.ltb (getSetID a) (getSetID b).

(** [GenerateEndpoints]; [addresses] is the order in which this call
    visits the entries of [routing.Addresses]. *)
Definition GenerateEndpoints (addresses : mapRange) (namespacedName : NamespacedName)
    (objectLabels : option (gmap string string)) (hostname : string) (routing : Routing)
    : result :=
  if String.eqb hostname "" then Err "listener hostname is empty"
  else
    match Validate routing with
    | Some err => Err err
    | None =>
        if String.eqb (Strategy routing) SimpleRoutingStrategy
        then Ok (Go.Slice lessSetID (getSimpleEndpoints addresses hostname))
        else if String.eqb (Strategy routing) LoadBalancedRoutingStrategy
        then
          match objectLabels with
          | None => Err "object labels required"
          | Some _ =>
              Ok (Go.Slice lessSetID
                    (getLoadBalancedEndpoints addresses namespacedName objectLabels
                       routing hostname))
          end
        else Err ("unknown routing strategy : " +:+ Strategy routing)
    end.
End Generator.

(** ** Vocabulary of the properties *)

(** The order [sort.Slice] is asked to establish: ascending sort keys. *)
Definition keyLe (a b : Endpoint) : Prop := String.leb (getSetID a) (getSetID b) = true.

(** Two records that agree on every field, the targets up to their order. *)
Definition sameRecord (a b : Endpoint) : Prop :=
  DNSName a = DNSName b ∧ Targets a ≡ₚ Targets b ∧ RecordType a = RecordType b
  ∧ SetIdentifier a = SetIdentifier b ∧ RecordTTL a = RecordTTL b
  ∧ ProviderSpecific a = ProviderSpecific b.

(** The addresses of a map typed ["IPAddress"], and all the others. *)
Definition ipAddresses (m : option (gmap string string)) : list string :=
  (filter (λ kv, kv.2 = IPAddressType) (map_to_list (default ∅ m))).*1.

Definition hostAddresses (m : option (gmap string string)) : list string :=
  (filter (λ kv, kv.2 ≠ IPAddressType) (map_to_list (default ∅ m))).*1.

(** A CNAME record at [name]. *)
Definition cnameAt (name : string) (e : Endpoint) : Prop :=
  DNSName e = name ∧ RecordType e = CNAMERecordType.

#[global] Instance cnameAt_dec name e : Decision (cnameAt name e).
Proof. unfold cnameAt. apply _. Defined.

(** ** Inputs of the examples, after the unit tests of the generator *)

(** The two short codes the unit tests record; any other name is cut to
    the code length, which is enough for the examples. *)
Definition testShortCoder : ShortCoder :=
  λ name len,
    if String.eqb name "fbf71c44-6b37-4962-ace6-801912e769be" then "2q5hyv"
    else if String.eqb name "TestName-TestNamespace" then "a8xcra"
    else String.substring 0 len name.

Definition TestNamespacedName : NamespacedName :=
  {| Namespace := "TestNamespace"; Name := "TestName" |}.

Definition twoIPs : gmap string string :=
  <["127.0.0.1" := IPAddressType]> (<["127.0.0.2" := IPAddressType]> ∅).

Definition oneHost : gmap string string := <["pat.the.cat" := HostnameAddressType]> ∅.

Definition mixedAddresses : gmap string string :=
  <["127.0.0.1" := IPAddressType]>
    (<["pat.the.cat" := HostnameAddressType]> (<["other.host" := "Unknown"]> ∅)).

Definition simpleRouting (addresses : option (gmap string string)) : Routing :=
  {| Addresses := addresses; Strategy := SimpleRoutingStrategy; DefaultGeoCode := "";
     DefaultWeight := 0; CustomWeights := []; ClusterID := "" |}.

Definition lbRouting (addresses : option (gmap string string))
    (customWeights : list CustomWeight) : Routing :=
  {| Addresses := addresses; Strategy := LoadBalancedRoutingStrategy; DefaultGeoCode := "IE";
     DefaultWeight := 120; CustomWeights := customWeights;
     ClusterID := "fbf71c44-6b37-4962-ace6-801912e769be" |}.

Definition geoLabels (geoCode : string) : gmap string string :=
  <[LabelLBAttributeGeoCode := geoCode]> ∅.

(** ** The shapes [Validate] rejects, in the order it checks them *)

(** A custom weight whose selector has neither match labels nor match
    expressions set (both are nil). *)
Definition selectorUnset (cw : CustomWeight) : Prop :=
  labels.MatchLabels (Selector cw) = None ∧ labels.MatchExpressions (Selector cw) = None.

Definition acceptable (cw : CustomWeight) : Prop := Weight cw ≠ 0 ∧ ¬ selectorUnset cw.

(** The fields a routing other than Simple has to provide. *)
Definition provided (r : Routing) : Prop :=
  Strategy r ≠ "" ∧ Addresses r ≠ None ∧ ClusterID r ≠ "" ∧ DefaultWeight r ≠ 0
  ∧ DefaultGeoCode r ≠ "".

(** The outcome of validating [r]: the first check that fails decides. *)
Inductive ValidateSpec (r : Routing) : option string → Prop :=
| valid_simple :
    Strategy r = SimpleRoutingStrategy → ValidateSpec r None
| invalid_addresses :
    Strategy r ≠ SimpleRoutingStrategy → Strategy r = "" ∨ Addresses r = None →
    ValidateSpec r (Some "must provide addresses")
| invalid_cluster :
    Strategy r ≠ SimpleRoutingStrategy → Strategy r ≠ "" → Addresses r ≠ None →
    ClusterID r = "" →
    ValidateSpec r (Some "cluster ID is required")
| invalid_weight :
    Strategy r ≠ SimpleRoutingStrategy → Strategy r ≠ "" → Addresses r ≠ None →
    ClusterID r ≠ "" → DefaultWeight r = 0 →
    ValidateSpec r (Some "default weight is required")
| invalid_geo :
    Strategy r ≠ SimpleRoutingStrategy → Strategy r ≠ "" → Addresses r ≠ None →
    ClusterID r ≠ "" → DefaultWeight r ≠ 0 → DefaultGeoCode r = "" →
    ValidateSpec r (Some "default geocode is required")
| invalid_custom_zero pre cw post :
    Strategy r ≠ SimpleRoutingStrategy → provided r →
    CustomWeights r = (pre ++ cw :: post)%list → Forall acceptable pre → Weight cw = 0 →
    ValidateSpec r (Some "custom weight cannot be zero")
| invalid_custom_selector pre cw post :
    Strategy r ≠ SimpleRoutingStrategy → provided r →
    CustomWeights r = (pre ++ cw :: post)%list → Forall acceptable pre → Weight cw ≠ 0 →
    selectorUnset cw →
    ValidateSpec r (Some "custom weight must define non-empty selector")
| valid_other :
    Strategy r ≠ SimpleRoutingStrategy → provided r → Forall acceptable (CustomWeights r) →
    ValidateSpec r None.

(** A load-balanced routing that sets nothing else. *)
Definition bareLoadBalanced : Routing :=
  {| Addresses := None; Strategy := LoadBalancedRoutingStrategy; DefaultGeoCode := "";
     DefaultWeight := 0; CustomWeights := []; ClusterID := "" |}.

(** The routing of the unit tests after its cluster ID is cleared. *)
Definition noClusterID : Routing :=
  {| Addresses := Some twoIPs; Strategy := LoadBalancedRoutingStrategy; DefaultGeoCode := "IE";
     DefaultWeight := 120; CustomWeights := []; ClusterID := "" |}.

(** ** The records of the load-balanced chain *)

(** The A record of the cluster, at the cluster name. *)
Definition clusterRecord (clusterLbName : string) (ipValues : list string) : Endpoint :=
  {| DNSName := clusterLbName; Targets := ipValues; RecordType := "A"; SetIdentifier := "";
     RecordTTL := 60; ProviderSpecific := [] |}.

(** A geo-tier CNAME: one target, which is also the set identifier,
    carrying the weight. *)
Definition weightedRecord (geoLbName target : string) (weight : Z) : Endpoint :=
  {| DNSName := geoLbName; Targets := [target]; RecordType := "CNAME";
     SetIdentifier := target; RecordTTL := 60;
     ProviderSpecific := [("weight", Go.Itoa weight)] |}.

(** The CNAME at the load-balancer name for the geo code of the object; it
    carries the geo code unless that is the sentinel of an unlabelled
    object. *)
Definition geoRecord (lbName geoLbName geoCode : string) : Endpoint :=
  {| DNSName := lbName; Targets := [geoLbName]; RecordType := "CNAME";
     SetIdentifier := geoCode; RecordTTL := 300;
     ProviderSpecific :=
       if String.eqb geoCode "default" then [] else [("geo-code", geoCode)] |}.

(** The CNAME at the load-balancer name for the default geo. *)
Definition defaultRecord (lbName geoLbName : string) : Endpoint :=
  {| DNSName := lbName; Targets := [geoLbName]; RecordType := "CNAME";
     SetIdentifier := "default"; RecordTTL := 300;
     ProviderSpecific := [("geo-code", "*")] |}.

(** The CNAME at the hostname. *)
Definition topRecord (hostname lbName : string) : Endpoint :=
  {| DNSName := hostname; Targets := [lbName]; RecordType := "CNAME"; SetIdentifier := "";
     RecordTTL := 300; ProviderSpecific := [] |}.

(** The records [getLoadBalancedEndpoints] appends, in its order, for the
    IP targets [ipValues] and the hostname targets [hostValues]. *)
Definition chain `{ShortCoder} (namespacedName : NamespacedName)
    (objectLabels : option (gmap string string)) (routing : Routing) (hostname : string)
    (ipValues hostValues : list string) : list Endpoint :=
  let lbName := lbNameOf hostname in
  let geoCode := getGeoFromLabel objectLabels in
  let geoLbName := geoLbNameOf geoCode lbName in
  let clusterLbName := clusterLbNameOf namespacedName routing lbName in
  match ipValues, hostValues with
  | [], [] => []
  | _, _ =>
      match ipValues with [] => [] | _ => [clusterRecord clusterLbName ipValues] end
      ++ ((λ target, weightedRecord geoLbName target (getWeight routing objectLabels))
            <$> (hostValues ++ match ipValues with [] => [] | _ => [clusterLbName] end))
      ++ [geoRecord lbName geoLbName geoCode]
      ++ (if String.eqb geoCode (DefaultGeoCode routing)
          then [defaultRecord lbName geoLbName] else [])
      ++ [topRecord hostname lbName]
  end.

(** ** Custom weights against the labels of an object *)

(** The selector of the custom weight is well formed and matches. *)
Definition selects (objectLabels : option (gmap string string)) (cw : CustomWeight) : Prop :=
  ∃ selector, labels.LabelSelectorAsSelector (Selector cw) = Some selector
              ∧ labels.Matches selector objectLabels = true.

(** The selector of the custom weight is well formed and does not match. *)
Definition passesOver (objectLabels : option (gmap string string)) (cw : CustomWeight) : Prop :=
  ∃ selector, labels.LabelSelectorAsSelector (Selector cw) = Some selector
              ∧ labels.Matches selector objectLabels = false.

(** The selector of the custom weight cannot be converted. *)
Definition malformed (cw : CustomWeight) : Prop :=
  labels.LabelSelectorAsSelector (Selector cw) = None.

(** [sub] occurs in [s]. *)
Fixpoint occursIn (sub s : string) : bool :=
  match s with
  | EmptyString => String.prefix sub s
  | String _ s' => String.prefix sub s || occursIn sub s'
  end.

(** The custom weight of the unit tests, and one with an operator that is
    not a label selector operator. *)
Definition weightFOO : CustomWeight :=
  {| Weight := 100;
     Selector := {| labels.MatchLabels := Some {["kuadrant.io/my-custom-weight-attr" := "FOO"]};
                    labels.MatchExpressions := None |} |}.

Definition weightGt : CustomWeight :=
  {| Weight := 50;
     Selector := {| labels.MatchLabels := None;
                    labels.MatchExpressions :=
                      Some [ {| labels.Key := "kuadrant.io/my-custom-weight-attr";
                                labels.Operator := "Gt"; labels.Values := ["1"] |} ] |} |}.

Definition labelsFOO : gmap string string :=
  <["kuadrant.io/my-custom-weight-attr" := "FOO"]> (geoLabels "IE").

(** ** The routing builder *)

(** [RoutingBuilder] wraps the routing it fills in; a builder method
    updates it and hands the builder back. *)
Module RoutingBuilder.

(** [NewRoutingBuilder]: the zero routing. *)
Definition New : Routing :=
  {| Addresses := None; Strategy := ""; DefaultGeoCode := ""; DefaultWeight := 0;
     CustomWeights := []; ClusterID := "" |}.

(** [WithAddresses]: a strategy set by [WithLoadBalancing] is not
    overridden. *)
Definition WithAddresses (addresses : option (gmap string string)) (rb : Routing) : Routing :=
  {| Addresses := addresses;
     Strategy := if String.eqb (Strategy rb) "" then SimpleRoutingStrategy else Strategy rb;
     DefaultGeoCode := DefaultGeoCode rb; DefaultWeight := DefaultWeight rb;
     CustomWeights := CustomWeights rb; ClusterID := ClusterID rb |}.

Definition WithLoadBalancing (clusterID defaultGeo : string) (defaultWeight : Z)
    (rb : Routing) : Routing :=
  {| Addresses := Addresses rb; Strategy := LoadBalancedRoutingStrategy;
     DefaultGeoCode := defaultGeo; DefaultWeight := defaultWeight;
     CustomWeights := CustomWeights rb; ClusterID := clusterID |}.

Definition WithCustomWeights (weights : list CustomWeight) (rb : Routing) : Routing :=
  {| Addresses := Addresses rb; Strategy := Strategy rb;
     DefaultGeoCode := DefaultGeoCode rb; DefaultWeight := DefaultWeight rb;
     CustomWeights := weights; ClusterID := ClusterID rb |}.

(** [Build]: the routing, whether valid or not, and the error of
    [Validate]. *)
Definition Build (rb : Routing) : Routing * option string := (rb, Validate rb).

End RoutingBuilder.

(** ** Package builder: the endpoints builder and the DNS record builder *)

Module builder.

(** [TargetAddress]; [Type_] is its field [Type]. *)
Record TargetAddress := { Type_ : string; Value : string }.

(** What the methods of an implementation of the interface [Target]
    answer; [None] is a call that panics. *)
Record TargetMethods := {
  GetNamespace : option string;
  GetName : option string;
  GetShortCode : option string;
  GetHostname : option string;
  GetAddresses : option (list TargetAddress)
}.

(** A value of the interface type [Target]: the nil interface, or an
    implementation. *)
Inductive Target :=
| NilTarget
| Implements (methods : TargetMethods).

(** [target.GetNamespace()]: [None] when the call panics, as it does on the
    nil interface. *)
Definition callGetNamespace (t : Target) : option string :=
  match t with
  | NilTarget => None
  | Implements methods => GetNamespace methods
  end.

Section Builders.
(** [v1alpha1.LoadBalancingSpec] and [v1alpha1.ProviderRef] are declared
    outside the files at hand; the builders only store their values. *)
Context {LoadBalancingSpec ProviderRef : Type}.

(** [EndpointsBuilder]; [None] is a nil pointer. *)
Record EndpointsBuilder := {
  target : option Target;
  routingStrategy : string;
  loadBalancing : option LoadBalancingSpec;
  endpoints : list Endpoint
}.

Definition NewEndpointsBuilder : EndpointsBuilder :=
  {| target := None; routingStrategy := ""; loadBalancing := None; endpoints := [] |}.

Definition ForTarget (t : Target) (blder : EndpointsBuilder) : EndpointsBuilder :=
  {| target := Some t; routingStrategy := routingStrategy blder;
     loadBalancing := loadBalancing blder; endpoints := endpoints blder |}.

Definition ForRoutingStrategy (rs : string) (blder : EndpointsBuilder) : EndpointsBuilder :=
  {| target := target blder; routingStrategy := rs;
     loadBalancing := loadBalancing blder; endpoints := endpoints blder |}.

Definition WithLoadBalancing (lb : option LoadBalancingSpec) (blder : EndpointsBuilder)
    : EndpointsBuilder :=
  {| target := target blder; routingStrategy := routingStrategy blder;
     loadBalancing := lb; endpoints := endpoints blder |}.

Definition WithEndpoint (ep : Endpoint) (blder : EndpointsBuilder) : EndpointsBuilder :=
  {| target := target blder; routingStrategy := routingStrategy blder;
     loadBalancing := loadBalancing blder; endpoints := endpoints blder ++ [ep] |}.

(** The two generators of the package return no endpoint. *)
Definition getSimpleEndpoints (_ : Target) : list Endpoint := [].
Definition getLoadBalancedEndpoints (_ : Target) (_ : LoadBalancingSpec) : list Endpoint := [].

(** [EndpointsBuilder.Build]: the builder with its endpoints updated, and
    the endpoints returned; the error is always nil. *)
Definition Build (blder : EndpointsBuilder) : EndpointsBuilder * list Endpoint :=
  let eps :=
    match target blder with
    | Some t =>
        match loadBalancing blder with
        | Some lb => endpoints blder ++ getLoadBalancedEndpoints t lb
        | None => endpoints blder ++ getSimpleEndpoints t
        end
    | None => endpoints blder
    end in
  ({| target := target blder; routingStrategy := routingStrategy blder;
      loadBalancing := loadBalancing blder; endpoints := eps |}, eps).

(** The calls a client can chain on an endpoints builder. *)
Inductive call :=
| CallForTarget (t : Target)
| CallForRoutingStrategy (rs : string)
| CallWithLoadBalancing (lb : option LoadBalancingSpec)
| CallWithEndpoint (ep : Endpoint).

Definition apply (blder : EndpointsBuilder) (c : call) : EndpointsBuilder :=
  match c with
  | CallForTarget t => ForTarget t blder
  | CallForRoutingStrategy rs => ForRoutingStrategy rs blder
  | CallWithLoadBalancing lb => WithLoadBalancing lb blder
  | CallWithEndpoint ep => WithEndpoint ep blder
  end.

(** The builder after a chain of calls on a new builder. *)
Definition chained (calls : list call) : EndpointsBuilder :=
  fold_left apply calls NewEndpointsBuilder.

(** The endpoints handed to [WithEndpoint] in a chain of calls, in order. *)
Definition added (calls : list call) : list Endpoint :=
  omap (λ c, match c with CallWithEndpoint ep => Some ep | _ => None end) calls.

(** [v1alpha1.DNSRecord], with the fields the record builder sets. *)
Record DNSRecord := {
  RecordName : string;
  RecordNamespace : string;
  OwnerID : string;
  RootHost : string;
  RecordProviderRef : ProviderRef;
  Endpoints : list Endpoint
}.

(** [DNSRecordBuilder]; [endpointBuilder] is a pointer, [None] when nil. *)
Record DNSRecordBuilder := {
  name : string;
  namespace : string;
  ownerID : string;
  rootHost : string;
  providerRef : ProviderRef;
  endpointBuilder : option EndpointsBuilder
}.

(** [NewDNSRecordBuilder]; [zeroRef] is the zero provider reference. *)
Definition NewDNSRecordBuilder (zeroRef : ProviderRef) (name namespace : string)
    : DNSRecordBuilder :=
  {| name := name; namespace := namespace; ownerID := ""; rootHost := "";
     providerRef := zeroRef; endpointBuilder := None |}.

(** [DNSRecordBuilder.ForTarget]: creates the endpoints builder when there
    is none, hands it the target, and takes the namespace of the target;
    [None] is the panic of [target.GetNamespace()]. *)
Definition RecordForTarget (t : Target) (blder : DNSRecordBuilder)
    : option DNSRecordBuilder :=
  let eb := ForTarget t (default NewEndpointsBuilder (endpointBuilder blder)) in
  match callGetNamespace t with
  | None => None
  | Some ns =>
      Some {| name := name blder; namespace := ns; ownerID := ownerID blder;
              rootHost := rootHost blder; providerRef := providerRef blder;
              endpointBuilder := Some eb |}
  end.

(** [DNSRecordBuilder.ForRoutingStrategy]: dereferences the endpoints
    builder; [None] is the panic on a nil pointer. *)
Definition RecordForRoutingStrategy (rs : string) (blder : DNSRecordBuilder)
    : option DNSRecordBuilder :=
  match endpointBuilder blder with
  | None => None
  | Some eb =>
      Some {| name := name blder; namespace := namespace blder; ownerID := ownerID blder;
              rootHost := rootHost blder; providerRef := providerRef blder;
              endpointBuilder := Some (ForRoutingStrategy rs eb) |}
  end.

Definition WithName (n : string) (blder : DNSRecordBuilder) : DNSRecordBuilder :=
  {| name := n; namespace := namespace blder; ownerID := ownerID blder;
     rootHost := rootHost blder; providerRef := providerRef blder;
     endpointBuilder := endpointBuilder blder |}.

Definition WithNamespace (ns : string) (blder : DNSRecordBuilder) : DNSRecordBuilder :=
  {| name := name blder; namespace := ns; ownerID := ownerID blder;
     rootHost := rootHost blder; providerRef := providerRef blder;
     endpointBuilder := endpointBuilder blder |}.

Definition WithOwnerID (o : string) (blder : DNSRecordBuilder) : DNSRecordBuilder :=
  {| name := name blder; namespace := namespace blder; ownerID := o;
     rootHost := rootHost blder; providerRef := providerRef blder;
     endpointBuilder := endpointBuilder blder |}.

Definition WithRootHost (h : string) (blder : DNSRecordBuilder) : DNSRecordBuilder :=
  {| name := name blder; namespace := namespace blder; ownerID := ownerID blder;
     rootHost := h; providerRef := providerRef blder;
     endpointBuilder := endpointBuilder blder |}.

Definition WithProviderRef (p : ProviderRef) (blder : DNSRecordBuilder) : DNSRecordBuilder :=
  {| name := name blder; namespace := namespace blder; ownerID := ownerID blder;
     rootHost := rootHost blder; providerRef := p;
     endpointBuilder := endpointBuilder blder |}.

(** [DNSRecordBuilder.Build]: [None] is the panic of calling [Build] on a
    nil endpoints builder; the error of the endpoints builder is always
    nil. *)
Definition RecordBuild (blder : DNSRecordBuilder) : option DNSRecord :=
  match endpointBuilder blder with
  | None => None
  | Some eb =>
      Some {| RecordName := name blder; RecordNamespace := namespace blder;
              OwnerID := ownerID blder; RootHost := rootHost blder;
              RecordProviderRef := providerRef blder; Endpoints := (Build eb).2 |}
  end.

(** The calls a client can chain on a record builder. *)
Inductive recordCall :=
| RForTarget (t : Target)
| RForRoutingStrategy (rs : string)
| RWithName (n : string)
| RWithNamespace (ns : string)
| RWithOwnerID (o : string)
| RWithRootHost (h : string)
| RWithProviderRef (p : ProviderRef).

Definition recordApply (blder : option DNSRecordBuilder) (c : recordCall)
    : option DNSRecordBuilder :=
  match blder with
  | None => None
  | Some b =>
      match c with
      | RForTarget t => RecordForTarget t b
      | RForRoutingStrategy rs => RecordForRoutingStrategy rs b
      | RWithName n => Some (WithName n b)
      | RWithNamespace ns => Some (WithNamespace ns b)
      | RWithOwnerID o => Some (WithOwnerID o b)
      | RWithRootHost h => Some (WithRootHost h b)
      | RWithProviderRef p => Some (WithProviderRef p b)
      end
  end.

(** The record builder after a chain of calls on a new builder; [None] when
    a call of the chain panics. *)
Definition recordChained (zeroRef : ProviderRef) (n ns : string) (calls : list recordCall)
    : option DNSRecordBuilder :=
  fold_left recordApply calls (Some (NewDNSRecordBuilder zeroRef n ns)).

Definition isForTarget (c : recordCall) : bool :=
  match c with RForTarget _ => true | _ => false end.

(** The call is not a [ForTarget] whose target panics on [GetNamespace]. *)
Definition targetAnswers (c : recordCall) : bool :=
  match c with
  | RForTarget t => bool_decide (is_Some (callGetNamespace t))
  | _ => true
  end.

End Builders.

Arguments EndpointsBuilder : clear implicits.
Arguments call : clear implicits.
Arguments DNSRecord : clear implicits.
Arguments DNSRecordBuilder : clear implicits.
Arguments recordCall : clear implicits.

End builder.

(** ** Following the records from a name *)

(** [reaches endpoints from to]: starting at the name [from], following
    targets of records of [endpoints] leads to [to]. *)
Inductive reaches (endpoints : list Endpoint) : string → string → Prop :=
| reaches_target e t :
    e ∈ endpoints → t ∈ Targets e → reaches endpoints (DNSName e) t
| reaches_step e t u :
    e ∈ endpoints → t ∈ Targets e → reaches endpoints t u →
    reaches endpoints (DNSName e) u.

(** A target after the unit test of the package builder. *)
Definition gatewayTarget : builder.Target :=
  builder.Implements
    {| builder.GetNamespace := Some "testgw"; builder.GetName := Some "testgw-testgw";
       builder.GetShortCode := Some "testgw-testgw";
       builder.GetHostname := Some "foo.example.com";
       builder.GetAddresses := Some [ {| builder.Type_ := "IPAddress";
                                         builder.Value := "127.0.0.1" |} ] |}.

(** A routing whose default geo code sorts after "default". *)
Definition euRouting : Routing :=
  {| Addresses := Some oneHost; Strategy := LoadBalancedRoutingStrategy;
     DefaultGeoCode := "eu"; DefaultWeight := 120; CustomWeights := [];
     ClusterID := "fbf71c44-6b37-4962-ace6-801912e769be" |}.

(** The routing of the unit tests with its strategy set to an unknown one. *)
Definition catRouting : Routing :=
  {| Addresses := Some twoIPs; Strategy := "cat"; DefaultGeoCode := "IE";
     DefaultWeight := 120; CustomWeights := []; ClusterID := "cluster" |}.

(** ** Bytewise order of strings *)

Lemma leb_iff (a b : string) : String.leb a b = true ↔ a = b ∨ String_as_OT.lt a b.
Proof.
  unfold String.leb. destruct (String.compare a b) eqn:E.
  - apply String_as_OT.cmp_eq in E. tauto.
  - apply String_as_OT.cmp_lt in E. tauto.
  - split; [discriminate|]. intros [->| L].
    + assert (String.compare b b = Eq) as E' by (by apply String_as_OT.cmp_eq).
      congruence.
    + apply String_as_OT.cmp_lt in L. unfold String_as_OT.cmp in L. congruence.
Qed.

Lemma leb_trans (a b c : string) :
  String.leb a b = true → String.leb b c = true → String.leb a c = true.
Proof.
  rewrite !leb_iff. intros [->|L1] [->|L2]; auto.
  right. eapply String_as_OT.lt_trans; eauto.
Qed.

Lemma ltb_false_leb (a b : string) : String.ltb a b = false → String.leb b a = true.
Proof.
  unfold String.ltb, String.leb. rewrite (String.compare_antisym a b).
  destruct (String.compare b a); simpl; congruence.
Qed.

Lemma ltb_true_leb (a b : string) : String.ltb a b = true → String.leb a b = true.
Proof. unfold String.ltb, String.leb. destruct (String.compare a b); congruence. Qed.

Lemma ltb_irrefl (a : string) : String.ltb a a = false.
Proof.
  unfold String.ltb.
  assert (String.compare a a = Eq) as -> by (by apply String_as_OT.cmp_eq). done.
Qed.

Lemma append_cons c (s t : string) : String c s +:+ t = String c (s +:+ t).
Proof. reflexivity. Qed.

Lemma append_nil (t : string) : "" +:+ t = t.
Proof. reflexivity. Qed.

Lemma append_empty_r (s : string) : s +:+ "" = s.
Proof. induction s as [|c s IH]; [done | by rewrite append_cons, IH]. Qed.

Lemma append_length (s t : string) :
  String.length (s +:+ t) = (String.length s + String.length t)%nat.
Proof. induction s as [|c s IH]; [done | by rewrite append_cons; simpl; rewrite IH]. Qed.

Lemma ToLower_length (s : string) : String.length (Go.ToLower s) = String.length s.
Proof. induction s as [|c s IH]; simpl; [done | by rewrite IH]. Qed.

#[local] Instance keyLe_trans : Transitive keyLe.
Proof. intros a b c. apply leb_trans. Qed.

(** ** [sort.Slice] returns a sorted permutation *)

Section SliceFacts.
Context {A : Type} (less : A → A → bool) (le : relation A).
Hypothesis le_trans : Transitive le.
Hypothesis less_le : ∀ x y, less x y = true → le x y.
Hypothesis not_less_le : ∀ x y, less x y = false → le y x.

Lemma bubble_perm x acc : Go.bubble less x acc ≡ₚ x :: acc.
Proof.
  induction acc as [|y t IH]; simpl; [done|].
  destruct (less x y); [|done].
  rewrite IH. apply perm_swap.
Qed.

Lemma fold_bubble_perm data acc :
  fold_left (λ acc x, Go.bubble less x acc) data acc ≡ₚ data ++ acc.
Proof.
  revert acc. induction data as [|x t IH]; intros acc; simpl; [done|].
  rewrite IH, bubble_perm. by rewrite Permutation_middle.
Qed.

Lemma Slice_perm data : Go.Slice less data ≡ₚ data.
Proof.
  unfold Go.Slice. rewrite <- Permutation_rev, fold_bubble_perm.
  by rewrite app_nil_r.
Qed.

(** The reversed prefix is kept in descending order. *)
Lemma bubble_sorted x acc :
  StronglySorted (flip le) acc → StronglySorted (flip le) (Go.bubble less x acc).
Proof.
  induction acc as [|y t IH]; simpl; intros Hs.
  - repeat constructor.
  - apply StronglySorted_inv in Hs as [Ht Hy].
    destruct (less x y) eqn:E.
    + constructor; [by apply IH|].
      rewrite bubble_perm. constructor; [by apply less_le | done].
    + constructor; [by constructor|].
      constructor; [by apply not_less_le|].
      eapply Forall_impl; [exact Hy|]. intros z Hz. unfold flip in *.
      etrans; [exact Hz | by apply not_less_le].
Qed.

Lemma fold_bubble_sorted data acc :
  StronglySorted (flip le) acc →
  StronglySorted (flip le) (fold_left (λ acc x, Go.bubble less x acc) data acc).
Proof.
  revert acc. induction data as [|x t IH]; intros acc Hs; simpl; [done|].
  by apply IH, bubble_sorted.
Qed.

Lemma StronglySorted_rev_flip (l : list A) :
  StronglySorted (flip le) l → StronglySorted le (rev l).
Proof.
  induction 1 as [|x l Hs IH Hx]; simpl; [constructor|].
  apply StronglySorted_app_2; [| done | repeat constructor].
  intros a b Ha Hb. apply list_elem_of_singleton in Hb as ->.
  rewrite list_elem_of_In, <- in_rev, <- list_elem_of_In in Ha.
  by eapply (proj1 (Forall_forall _ _) Hx).
Qed.

Lemma Slice_sorted data : StronglySorted le (Go.Slice less data).
Proof.
  unfold Go.Slice. apply StronglySorted_rev_flip, fold_bubble_sorted. constructor.
Qed.
End SliceFacts.

Lemma Slice_lessSetID_perm l : Go.Slice lessSetID l ≡ₚ l.
Proof. apply Slice_perm. Qed.

Lemma Slice_lessSetID_sorted l : StronglySorted keyLe (Go.Slice lessSetID l).
Proof.
  apply Slice_sorted.
  - apply _.
  - intros x y. apply ltb_true_leb.
  - intros x y. apply ltb_false_leb.
Qed.

(** ** The final sort *)

(** C7: the list a successful call of [GenerateEndpoints] returns, under
    either strategy, is sorted ascending by the concatenation
    [dnsName + setIdentifier] in the bytewise order of strings: the
    concatenation of a record is never above that of a record after it. *)
Theorem GenerateEndpoints_sorted `{ShortCoder} (addresses : mapRange) namespacedName
    objectLabels hostname routing endpoints :
  GenerateEndpoints addresses namespacedName objectLabels hostname routing = Ok endpoints →
  StronglySorted
    (λ a b, String.leb (DNSName a +:+ SetIdentifier a) (DNSName b +:+ SetIdentifier b) = true)
    endpoints.
Proof.
  unfold GenerateEndpoints. intros Hgen.
  destruct (String.eqb hostname ""); [discriminate|].
  destruct (Validate routing); [discriminate|].
  destruct (String.eqb (Strategy routing) SimpleRoutingStrategy).
  { injection Hgen as <-. apply Slice_lessSetID_sorted. }
  destruct (String.eqb (Strategy routing) LoadBalancedRoutingStrategy); [|discriminate].
  destruct objectLabels; [|discriminate].
  injection Hgen as <-. apply Slice_lessSetID_sorted.
Qed.

Lemma GenerateEndpoints_sorted_witness :
  let out := [
    {| DNSName := "*.example.com"; Targets := ["klb.example.com"]; RecordType := "CNAME";
       SetIdentifier := ""; RecordTTL := 300; ProviderSpecific := [] |};
    {| DNSName := "eu.klb.example.com"; Targets := ["pat.the.cat"]; RecordType := "CNAME";
       SetIdentifier := "pat.the.cat"; RecordTTL := 60;
       ProviderSpecific := [("weight", "120")] |};
    {| DNSName := "klb.example.com"; Targets := ["eu.klb.example.com"];
       RecordType := "CNAME"; SetIdentifier := "default"; RecordTTL := 300;
       ProviderSpecific := [("geo-code", "*")] |};
    {| DNSName := "klb.example.com"; Targets := ["eu.klb.example.com"];
       RecordType := "CNAME"; SetIdentifier := "eu"; RecordTTL := 300;
       ProviderSpecific := [("geo-code", "eu")] |} ] in
  GenerateEndpoints (H := testShortCoder) [("pat.the.cat", "Hostname")] TestNamespacedName
    (Some (geoLabels "eu")) "*.example.com" euRouting = Ok out
  ∧ getLoadBalancedEndpoints (H := testShortCoder) [("pat.the.cat", "Hostname")]
      TestNamespacedName (Some (geoLabels "eu")) euRouting "*.example.com" ≠ out
  ∧ StronglySorted
      (λ a b, String.leb (DNSName a +:+ SetIdentifier a) (DNSName b +:+ SetIdentifier b)
              = true) out.
Proof.
  intros out.
  assert (GenerateEndpoints (H := testShortCoder) [("pat.the.cat", "Hostname")]
    TestNamespacedName (Some (geoLabels "eu")) "*.example.com" euRouting = Ok out) as Hgen
    by (vm_compute; reflexivity).
  split; [exact Hgen|]. split; [vm_compute; discriminate|].
  exact (GenerateEndpoints_sorted (H := testShortCoder) _ _ _ _ _ _ Hgen).
Defined.

(** ** The partition of the addresses *)

Lemma targetsFromAddresses_filter (addresses : mapRange) :
  targetsFromAddresses addresses =
    ((filter (λ kv, kv.2 = IPAddressType) addresses).*1,
     (filter (λ kv, kv.2 ≠ IPAddressType) addresses).*1).
Proof.
  induction addresses as [|[key value] rest IH]; [done|].
  cbn [targetsFromAddresses]. rewrite IH, !filter_cons. cbn [fst snd].
  destruct (String.eqb_spec value "IPAddress") as [->|Hne].
  - rewrite decide_True by done. rewrite decide_False by (intros ?; done). done.
  - rewrite decide_False by done. rewrite decide_True by done. done.
Qed.

Lemma targetsFromAddresses_perm m (addresses : mapRange) :
  rangesOver m addresses →
  (targetsFromAddresses addresses).1 ≡ₚ ipAddresses m
  ∧ (targetsFromAddresses addresses).2 ≡ₚ hostAddresses m.
Proof.
  unfold rangesOver, ipAddresses, hostAddresses. intros Hperm.
  rewrite targetsFromAddresses_filter. simpl. by rewrite Hperm.
Qed.

Lemma targetsFromAddresses_nil (addresses : mapRange) :
  targetsFromAddresses addresses = ([], []) → addresses = [].
Proof.
  destruct addresses as [|[key value] rest]; [done|]. simpl.
  destruct (targetsFromAddresses rest), (String.eqb value "IPAddress"); discriminate.
Qed.

Lemma rangesOver_empty m (addresses : mapRange) :
  rangesOver m addresses → m = None ∨ m = Some ∅ → addresses = [].
Proof.
  unfold rangesOver. intros Hperm [->| ->]; simpl in Hperm;
    rewrite map_to_list_empty in Hperm; by apply Permutation_nil_r.
Qed.

(** Records with one and the same key are left where they are. *)
Lemma Slice_same_key (l : list Endpoint) k :
  (length l ≤ 2)%nat → Forall (λ e, getSetID e = k) l → Go.Slice lessSetID l = l.
Proof.
  intros Hlen Hk.
  destruct l as [|a [|b [|c l]]]; [done | done | | simpl in Hlen; lia].
  apply Forall_cons in Hk as [Ha Hk]. apply Forall_cons in Hk as [Hb _].
  unfold Go.Slice. simpl. unfold lessSetID. rewrite Ha, Hb, ltb_irrefl. done.
Qed.

Lemma getSimpleEndpoints_key (addresses : mapRange) hostname :
  Forall (λ e, getSetID e = hostname) (getSimpleEndpoints addresses hostname)
  ∧ (length (getSimpleEndpoints addresses hostname) ≤ 2)%nat.
Proof.
  unfold getSimpleEndpoints. destruct (targetsFromAddresses addresses) as [ips hosts].
  destruct (0 <? length ips)%nat, (0 <? length hosts)%nat; simpl;
    (split; [repeat constructor; apply append_empty_r | lia]).
Qed.

(** What a call with a Simple routing returns. *)
Lemma GenerateEndpoints_simple `{ShortCoder} (addresses : mapRange) namespacedName
    objectLabels hostname routing :
  Strategy routing = SimpleRoutingStrategy → hostname ≠ "" →
  Validate routing = None
  ∧ GenerateEndpoints addresses namespacedName objectLabels hostname routing =
      Ok (getSimpleEndpoints addresses hostname).
Proof.
  intros Hs Hh. unfold GenerateEndpoints, Validate. rewrite Hs. simpl.
  apply String.eqb_neq in Hh. rewrite Hh. split; [done|].
  destruct (getSimpleEndpoints_key addresses hostname) as [Hk Hl].
  by rewrite (Slice_same_key _ _ Hl Hk).
Qed.

(** ** Simple strategy *)

(** C6: under the Simple strategy and a non-empty hostname the addresses
    are split into the IP-typed ones (kind ["IPAddress"]) and the
    hostname-typed ones (every other kind); the result holds, in this order,
    one A record at the hostname with exactly the IP-typed addresses as
    targets when there is any, and one CNAME record at the hostname with
    exactly the hostname-typed addresses as targets when there is any; both
    have TTL 60, an empty set identifier and no provider-specific property,
    and nothing else is returned. *)
Theorem simple_strategy_partition `{ShortCoder} (addresses : mapRange) namespacedName
    objectLabels hostname routing :
  Strategy routing = SimpleRoutingStrategy → hostname ≠ "" →
  rangesOver (Addresses routing) addresses →
  ∃ ipValues hostValues,
    ipValues ≡ₚ ipAddresses (Addresses routing)
    ∧ hostValues ≡ₚ hostAddresses (Addresses routing)
    ∧ GenerateEndpoints addresses namespacedName objectLabels hostname routing =
        Ok (match ipValues with
            | [] => []
            | _ => [ {| DNSName := hostname; Targets := ipValues; RecordType := "A";
                        SetIdentifier := ""; RecordTTL := 60; ProviderSpecific := [] |} ]
            end ++
            match hostValues with
            | [] => []
            | _ => [ {| DNSName := hostname; Targets := hostValues; RecordType := "CNAME";
                        SetIdentifier := ""; RecordTTL := 60; ProviderSpecific := [] |} ]
            end).
Proof.
  intros Hs Hh Hr.
  destruct (targetsFromAddresses_perm _ _ Hr) as [Hip Hhost].
  destruct (GenerateEndpoints_simple addresses namespacedName objectLabels hostname routing
              Hs Hh) as [_ ->].
  unfold getSimpleEndpoints.
  destruct (targetsFromAddresses addresses) as [ips hosts]. simpl in *.
  exists ips, hosts. split; [done|]. split; [done|].
  by destruct ips, hosts.
Qed.


Lemma simple_strategy_partition_witness :
  Strategy (simpleRouting (Some mixedAddresses)) = SimpleRoutingStrategy
  ∧ "test.example.com" ≠ ""
  ∧ rangesOver (Addresses (simpleRouting (Some mixedAddresses)))
      [("pat.the.cat", "Hostname"); ("127.0.0.1", "IPAddress"); ("other.host", "Unknown")]
  ∧ ∃ ipValues hostValues,
      ipValues ≡ₚ ipAddresses (Addresses (simpleRouting (Some mixedAddresses)))
      ∧ hostValues ≡ₚ hostAddresses (Addresses (simpleRouting (Some mixedAddresses)))
      ∧ GenerateEndpoints (H := testShortCoder)
          [("pat.the.cat", "Hostname"); ("127.0.0.1", "IPAddress"); ("other.host", "Unknown")]
          TestNamespacedName None "test.example.com" (simpleRouting (Some mixedAddresses)) =
          Ok (match ipValues with
              | [] => []
              | _ => [ {| DNSName := "test.example.com"; Targets := ipValues;
                          RecordType := "A"; SetIdentifier := ""; RecordTTL := 60;
                          ProviderSpecific := [] |} ]
              end ++
              match hostValues with
              | [] => []
              | _ => [ {| DNSName := "test.example.com"; Targets := hostValues;
                          RecordType := "CNAME"; SetIdentifier := ""; RecordTTL := 60;
                          ProviderSpecific := [] |} ]
              end).
Proof.
  assert (rangesOver (Addresses (simpleRouting (Some mixedAddresses)))
      [("pat.the.cat", "Hostname"); ("127.0.0.1", "IPAddress"); ("other.host", "Unknown")])
    as Hr.
  { unfold rangesOver. vm_compute.
    apply (Permutation_rev [("pat.the.cat", "Hostname"); ("127.0.0.1", "IPAddress");
                            ("other.host", "Unknown")]). }
  assert ("test.example.com" ≠ "") as Hh by discriminate.
  exact (conj eq_refl (conj Hh (conj Hr
    (simple_strategy_partition (H := testShortCoder)
       [("pat.the.cat", "Hostname"); ("127.0.0.1", "IPAddress"); ("other.host", "Unknown")]
       TestNamespacedName None "test.example.com" (simpleRouting (Some mixedAddresses))
       eq_refl Hh Hr)))).
Defined.

(** C10: for a routing whose strategy is Simple, [Validate] returns the nil
    error whatever the other fields hold, so that [GenerateEndpoints] with a
    non-empty hostname succeeds; it returns the empty list when the address
    map is nil or empty; and an address of any kind other than ["IPAddress"]
    is a target of a CNAME record of the result and of no A record. *)
Theorem simple_strategy_never_rejects `{ShortCoder} (addresses : mapRange) namespacedName
    objectLabels hostname routing :
  Strategy routing = SimpleRoutingStrategy → hostname ≠ "" →
  rangesOver (Addresses routing) addresses →
  Validate routing = None
  ∧ ∃ endpoints,
      GenerateEndpoints addresses namespacedName objectLabels hostname routing = Ok endpoints
      ∧ (Addresses routing = None ∨ Addresses routing = Some ∅ → endpoints = [])
      ∧ ∀ address kind,
          default ∅ (Addresses routing) !! address = Some kind → kind ≠ "IPAddress" →
          (∃ e, e ∈ endpoints ∧ RecordType e = "CNAME" ∧ address ∈ Targets e)
          ∧ ∀ e, e ∈ endpoints → RecordType e = "A" → address ∉ Targets e.
Proof.
  intros Hs Hh Hr.
  destruct (GenerateEndpoints_simple addresses namespacedName objectLabels hostname routing
              Hs Hh) as [Hv Hgen].
  split; [done|]. eexists. split; [exact Hgen|]. split.
  - intros Hempty. by rewrite (rangesOver_empty _ _ Hr Hempty).
  - intros address kind Hlook Hkind.
    assert ((address, kind) ∈ addresses) as Hin.
    { unfold rangesOver in Hr. rewrite Hr. by apply elem_of_map_to_list. }
    unfold getSimpleEndpoints. rewrite targetsFromAddresses_filter.
    set (ips := (filter (λ kv, kv.2 = IPAddressType) addresses).*1).
    set (hosts := (filter (λ kv, kv.2 ≠ IPAddressType) addresses).*1).
    assert (address ∈ hosts) as Hhost.
    { apply list_elem_of_fmap. exists (address, kind). split; [done|].
      by apply list_elem_of_filter. }
    assert (address ∉ ips) as Hip.
    { intros Hmem. apply list_elem_of_fmap in Hmem as [[a k] [Ha Hf]].
      apply list_elem_of_filter in Hf as [Hk Hmem]. simpl in Ha, Hk. subst a k.
      unfold rangesOver in Hr. rewrite Hr in Hmem.
      apply elem_of_map_to_list in Hmem. rewrite Hlook in Hmem.
      injection Hmem as ->. by apply Hkind. }
    assert ((0 <? length hosts)%nat = true) as ->.
    { destruct hosts; [by apply elem_of_nil in Hhost | done]. }
    split.
    + eexists. split; [apply elem_of_app; right; apply list_elem_of_here|]. done.
    + intros e He HA. destruct (0 <? length ips)%nat; simpl in He.
      * apply elem_of_cons in He as [->|He]; [done|].
        apply list_elem_of_singleton in He as ->. discriminate.
      * apply list_elem_of_singleton in He as ->. discriminate.
Qed.

Lemma simple_strategy_never_rejects_witness :
  Strategy (simpleRouting (Some mixedAddresses)) = SimpleRoutingStrategy
  ∧ "test.example.com" ≠ ""
  ∧ rangesOver (Addresses (simpleRouting (Some mixedAddresses)))
      [("other.host", "Unknown"); ("pat.the.cat", "Hostname"); ("127.0.0.1", "IPAddress")]
  ∧ Validate (simpleRouting (Some mixedAddresses)) = None
  ∧ ∃ endpoints,
      GenerateEndpoints (H := testShortCoder)
        [("other.host", "Unknown"); ("pat.the.cat", "Hostname"); ("127.0.0.1", "IPAddress")]
        TestNamespacedName None "test.example.com" (simpleRouting (Some mixedAddresses))
        = Ok endpoints
      ∧ (Addresses (simpleRouting (Some mixedAddresses)) = None
         ∨ Addresses (simpleRouting (Some mixedAddresses)) = Some ∅ → endpoints = [])
      ∧ ∀ address kind,
          default ∅ (Addresses (simpleRouting (Some mixedAddresses))) !! address = Some kind →
          kind ≠ "IPAddress" →
          (∃ e, e ∈ endpoints ∧ RecordType e = "CNAME" ∧ address ∈ Targets e)
          ∧ ∀ e, e ∈ endpoints → RecordType e = "A" → address ∉ Targets e.
Proof.
  assert (rangesOver (Addresses (simpleRouting (Some mixedAddresses)))
      [("other.host", "Unknown"); ("pat.the.cat", "Hostname"); ("127.0.0.1", "IPAddress")])
    as Hr.
  { unfold rangesOver. vm_compute. apply perm_skip, perm_swap. }
  assert ("test.example.com" ≠ "") as Hh by discriminate.
  exact (conj eq_refl (conj Hh (conj Hr
    (simple_strategy_never_rejects (H := testShortCoder)
       [("other.host", "Unknown"); ("pat.the.cat", "Hostname"); ("127.0.0.1", "IPAddress")]
       TestNamespacedName None "test.example.com" (simpleRouting (Some mixedAddresses))
       eq_refl Hh Hr)))).
Defined.

(** ** Validation *)

Lemma acceptable_dec (cw : CustomWeight) :
  (Weight cw = 0) ∨ (Weight cw ≠ 0 ∧ selectorUnset cw) ∨ acceptable cw.
Proof.
  unfold acceptable, selectorUnset.
  destruct (decide (Weight cw = 0)) as [?|Hw]; [by left|]. right.
  destruct (labels.MatchLabels (Selector cw)) eqn:E1; [right; split; [done|]; by intros [? _]|].
  destruct (labels.MatchExpressions (Selector cw)) eqn:E2;
    [right; split; [done|]; by intros [_ ?]|].
  by left.
Qed.

Lemma validateCustomWeights_acceptable cw rest :
  acceptable cw → validateCustomWeights (cw :: rest) = validateCustomWeights rest.
Proof.
  intros [Hw Hsel]. simpl. apply Z.eqb_neq in Hw. rewrite Hw.
  unfold selectorUnset in Hsel.
  destruct (labels.MatchLabels (Selector cw)); [done|].
  destruct (labels.MatchExpressions (Selector cw)); [done|]. by destruct Hsel.
Qed.

Lemma validateCustomWeights_skip pre rest :
  Forall acceptable pre → validateCustomWeights (pre ++ rest) = validateCustomWeights rest.
Proof.
  induction 1 as [|cw pre Hcw _ IH]; [done|].
  simpl app. by rewrite validateCustomWeights_acceptable.
Qed.

Lemma validateCustomWeights_zero cw rest :
  Weight cw = 0 → validateCustomWeights (cw :: rest) = Some "custom weight cannot be zero".
Proof. intros Hw. simpl. by rewrite Hw. Qed.

Lemma validateCustomWeights_unset cw rest :
  Weight cw ≠ 0 → selectorUnset cw →
  validateCustomWeights (cw :: rest) = Some "custom weight must define non-empty selector".
Proof. intros Hw [H1 H2]. simpl. apply Z.eqb_neq in Hw. by rewrite Hw, H1, H2. Qed.

(** The loop stops at the first custom weight that is not acceptable. *)
Lemma validateCustomWeights_cases cws :
  (Forall acceptable cws ∧ validateCustomWeights cws = None)
  ∨ ∃ pre cw post, cws = pre ++ cw :: post ∧ Forall acceptable pre
      ∧ ((Weight cw = 0 ∧ validateCustomWeights cws = Some "custom weight cannot be zero")
         ∨ (Weight cw ≠ 0 ∧ selectorUnset cw
            ∧ validateCustomWeights cws = Some "custom weight must define non-empty selector")).
Proof.
  induction cws as [|cw rest IH]; [left; by split|].
  destruct (acceptable_dec cw) as [Hz|[[Hw Hu]|Hacc]].
  - right. exists [], cw, rest. split; [done|]. split; [done|]. left.
    split; [done | by apply validateCustomWeights_zero].
  - right. exists [], cw, rest. split; [done|]. split; [done|]. right.
    split; [done|]. split; [done | by apply validateCustomWeights_unset].
  - rewrite (validateCustomWeights_acceptable _ _ Hacc).
    destruct IH as [[Hall Hnone]|(pre & cw' & post & -> & Hpre & Hcase)].
    + left. split; [by constructor | done].
    + right. exists (cw :: pre), cw', post. split; [done|]. split; [by constructor | done].
Qed.

Lemma Validate_provided r :
  Strategy r ≠ SimpleRoutingStrategy → provided r →
  Validate r = validateCustomWeights (CustomWeights r).
Proof.
  intros Hs (Hst & Ha & Hc & Hw & Hg). unfold Validate.
  apply String.eqb_neq in Hs, Hst, Hc, Hg. apply Z.eqb_neq in Hw.
  rewrite Hs, Hst, Hc, Hw, Hg. destruct (Addresses r); [|done].
  rewrite bool_decide_eq_true_2 by done. done.
Qed.

Lemma ValidateSpec_sound r res : ValidateSpec r res → Validate r = res.
Proof.
  destruct 1 as [Hs|Hs Hbad|Hs Hst Ha Hc|Hs Hst Ha Hc Hw|Hs Hst Ha Hc Hw Hg
                 |pre cw post Hs Hp Hcws Hpre Hw|pre cw post Hs Hp Hcws Hpre Hw Hu|Hs Hp Hall].
  - unfold Validate. by rewrite Hs.
  - unfold Validate. apply String.eqb_neq in Hs. rewrite Hs.
    destruct Hbad as [->| ->]; [done|]. rewrite bool_decide_eq_false_2 by (by intros [? ?]).
    by rewrite orb_true_r.
  - unfold Validate. apply String.eqb_neq in Hs, Hst. rewrite Hs, Hst, Hc.
    destruct (Addresses r); [|done]. by rewrite bool_decide_eq_true_2.
  - unfold Validate. apply String.eqb_neq in Hs, Hst, Hc. rewrite Hs, Hst, Hc, Hw.
    destruct (Addresses r); [|done]. by rewrite bool_decide_eq_true_2.
  - unfold Validate. apply String.eqb_neq in Hs, Hst, Hc. apply Z.eqb_neq in Hw.
    rewrite Hs, Hst, Hc, Hw, Hg.
    destruct (Addresses r); [|done]. by rewrite bool_decide_eq_true_2.
  - rewrite (Validate_provided _ Hs Hp), Hcws, (validateCustomWeights_skip _ _ Hpre).
    by apply validateCustomWeights_zero.
  - rewrite (Validate_provided _ Hs Hp), Hcws, (validateCustomWeights_skip _ _ Hpre).
    by apply validateCustomWeights_unset.
  - rewrite (Validate_provided _ Hs Hp).
    destruct (validateCustomWeights_cases (CustomWeights r))
      as [[_ ?]|(pre & cw & post & Hcws & _ & Hcase)]; [done|].
    rewrite Hcws in Hall. apply Forall_app in Hall as [_ Hall].
    apply Forall_cons in Hall as [[Hw Hu] _].
    destruct Hcase as [[? _]|(_ & ? & _)]; done.
Qed.

Lemma ValidateSpec_complete r : ValidateSpec r (Validate r).
Proof.
  destruct (decide (Strategy r = SimpleRoutingStrategy)) as [Hs|Hs].
  { rewrite (ValidateSpec_sound r None); by constructor. }
  destruct (decide (Strategy r = "")) as [Hst|Hst].
  { rewrite (ValidateSpec_sound r (Some "must provide addresses")); constructor; auto. }
  destruct (decide (Addresses r = None)) as [Ha|Ha].
  { rewrite (ValidateSpec_sound r (Some "must provide addresses")); constructor; auto. }
  destruct (decide (ClusterID r = "")) as [Hc|Hc].
  { rewrite (ValidateSpec_sound r (Some "cluster ID is required")); by constructor. }
  destruct (decide (DefaultWeight r = 0)) as [Hw|Hw].
  { rewrite (ValidateSpec_sound r (Some "default weight is required")); by constructor. }
  destruct (decide (DefaultGeoCode r = "")) as [Hg|Hg].
  { rewrite (ValidateSpec_sound r (Some "default geocode is required")); by constructor. }
  assert (provided r) as Hp by done.
  destruct (validateCustomWeights_cases (CustomWeights r))
    as [[Hall _]|(pre & cw & post & Hcws & Hpre & [[Hz _]|(Hw' & Hu & _)])].
  - rewrite (ValidateSpec_sound r None); by apply valid_other.
  - rewrite (ValidateSpec_sound r (Some "custom weight cannot be zero"));
      by eapply invalid_custom_zero.
  - rewrite (ValidateSpec_sound r (Some "custom weight must define non-empty selector"));
      by eapply invalid_custom_selector.
Qed.

Lemma GenerateEndpoints_invalid `{ShortCoder} (addresses : mapRange) namespacedName
    objectLabels hostname routing err :
  hostname ≠ "" → Validate routing = Some err →
  GenerateEndpoints addresses namespacedName objectLabels hostname routing = Err err.
Proof.
  intros Hh Hv. unfold GenerateEndpoints. apply String.eqb_neq in Hh. by rewrite Hh, Hv.
Qed.

(** C8, as amended: [Validate] checks the routing in a fixed order and the
    first failing check decides.  A Simple routing is accepted as it is.
    Any other routing fails with "must provide addresses" when its strategy
    is unset or its addresses are nil; otherwise with "cluster ID is
    required" when the cluster ID is empty; otherwise with "default weight
    is required" when the default weight is 0; otherwise with "default
    geocode is required" when the default geo code is empty; otherwise the
    first custom weight, in declaration order, that has weight 0 or has both
    its match labels and its match expressions nil fails with "custom weight
    cannot be zero" resp. "custom weight must define non-empty selector";
    otherwise the routing is accepted.  [GenerateEndpoints] with a non-empty
    hostname returns the error of [Validate] unchanged. *)
Theorem Validate_rejects_in_order `{ShortCoder} (routing : Routing) :
  (∀ outcome, ValidateSpec routing outcome ↔ Validate routing = outcome)
  ∧ ∀ (addresses : mapRange) namespacedName objectLabels hostname err,
      hostname ≠ "" → Validate routing = Some err →
      GenerateEndpoints addresses namespacedName objectLabels hostname routing = Err err.
Proof.
  split.
  - intros outcome. split; [apply ValidateSpec_sound|]. intros <-. apply ValidateSpec_complete.
  - intros. by apply GenerateEndpoints_invalid.
Qed.

Lemma Validate_rejects_in_order_witness :
  ValidateSpec noClusterID (Some "cluster ID is required")
  ∧ "test.example.com" ≠ ""
  ∧ Validate noClusterID = Some "cluster ID is required"
  ∧ GenerateEndpoints (H := testShortCoder)
      [("127.0.0.1", IPAddressType); ("127.0.0.2", IPAddressType)] TestNamespacedName
      (Some (geoLabels "IE")) "test.example.com" noClusterID
    = Err "cluster ID is required".
Proof.
  assert (ValidateSpec noClusterID (Some "cluster ID is required")) as Hspec
    by (apply invalid_cluster; done).
  assert ("test.example.com" ≠ "") as Hh by discriminate.
  pose proof (proj1 (proj1 (Validate_rejects_in_order (H := testShortCoder) noClusterID) _)
                Hspec) as Hv.
  exact (conj Hspec (conj Hh (conj Hv
    (proj2 (Validate_rejects_in_order (H := testShortCoder) noClusterID)
       [("127.0.0.1", IPAddressType); ("127.0.0.2", IPAddressType)] TestNamespacedName
       (Some (geoLabels "IE")) "test.example.com" _ Hh Hv)))).
Defined.

(** C8 as stated fails: a load-balanced routing with an empty cluster ID is
    not always rejected with "cluster ID is required"; when its addresses
    are nil as well, the earlier check answers "must provide addresses". *)
Lemma Validate_cluster_message_counterexample :
  Strategy bareLoadBalanced = LoadBalancedRoutingStrategy
  ∧ ClusterID bareLoadBalanced = ""
  ∧ Validate bareLoadBalanced = Some "must provide addresses"
  ∧ Validate bareLoadBalanced ≠ Some "cluster ID is required".
Proof. repeat split; discriminate. Qed.

(** ** Missing object labels *)

(** C5, as amended: for a routing whose strategy is LoadBalanced and which
    passes [Validate], nil object labels and a non-empty hostname,
    [GenerateEndpoints] fails with "object labels required" and returns no
    endpoints. *)
Theorem missing_object_labels `{ShortCoder} (addresses : mapRange) namespacedName hostname
    routing :
  Strategy routing = LoadBalancedRoutingStrategy → Validate routing = None → hostname ≠ "" →
  GenerateEndpoints addresses namespacedName None hostname routing
  = Err "object labels required".
Proof.
  intros Hs Hv Hh. unfold GenerateEndpoints.
  apply String.eqb_neq in Hh. by rewrite Hh, Hv, Hs.
Qed.

Lemma missing_object_labels_witness :
  Strategy (lbRouting (Some twoIPs) []) = LoadBalancedRoutingStrategy
  ∧ Validate (lbRouting (Some twoIPs) []) = None
  ∧ "test.example.com" ≠ ""
  ∧ GenerateEndpoints (H := testShortCoder)
      [("127.0.0.1", IPAddressType); ("127.0.0.2", IPAddressType)] TestNamespacedName None
      "test.example.com" (lbRouting (Some twoIPs) [])
    = Err "object labels required".
Proof.
  assert ("test.example.com" ≠ "") as Hh by discriminate.
  exact (conj eq_refl (conj eq_refl (conj Hh
    (missing_object_labels (H := testShortCoder)
       [("127.0.0.1", IPAddressType); ("127.0.0.2", IPAddressType)] TestNamespacedName
       "test.example.com" (lbRouting (Some twoIPs) []) eq_refl eq_refl Hh)))).
Defined.

(** C5 as stated fails: with nil object labels, a load-balanced routing
    that does not pass [Validate] is answered with the validation error, not
    with "object labels required". *)
Lemma missing_object_labels_counterexample :
  Strategy bareLoadBalanced = LoadBalancedRoutingStrategy
  ∧ GenerateEndpoints (H := testShortCoder) [] TestNamespacedName None "test.example.com"
      bareLoadBalanced = Err "must provide addresses"
  ∧ GenerateEndpoints (H := testShortCoder) [] TestNamespacedName None "test.example.com"
      bareLoadBalanced ≠ Err "object labels required".
Proof. repeat split; discriminate. Qed.

(** ** The load-balanced chain *)

Lemma getLoadBalancedEndpoints_chain `{ShortCoder} (addresses : mapRange) namespacedName
    objectLabels routing hostname :
  getLoadBalancedEndpoints addresses namespacedName objectLabels routing hostname =
    chain namespacedName objectLabels routing hostname
      (targetsFromAddresses addresses).1 (targetsFromAddresses addresses).2.
Proof.
  unfold getLoadBalancedEndpoints, chain.
  destruct (targetsFromAddresses addresses) as [ips hosts]. cbn [fst snd].
  set (lbName := lbNameOf hostname). set (geoCode := getGeoFromLabel objectLabels).
  set (geoLbName := geoLbNameOf geoCode lbName).
  set (clusterLbName := clusterLbNameOf namespacedName routing lbName).
  set (w := getWeight routing objectLabels).
  assert (∀ l : list string,
    List.map (λ hostValue,
      SetProviderSpecificProperty
        (createEndpoint geoLbName [hostValue] CNAMERecordType hostValue DefaultTTL)
        ProviderSpecificWeight (Go.Itoa w)) l
    = (λ target, weightedRecord geoLbName target w) <$> l) as Hmap by done.
  assert ((if negb (String.eqb geoCode DefaultGeo)
           then SetProviderSpecificProperty
                  (createEndpoint lbName [geoLbName] CNAMERecordType geoCode DefaultCnameTTL)
                  ProviderSpecificGeoCode geoCode
           else createEndpoint lbName [geoLbName] CNAMERecordType geoCode DefaultCnameTTL)
          = geoRecord lbName geoLbName geoCode) as Hgeo.
  { unfold geoRecord, DefaultGeo. by destruct (String.eqb geoCode "default"). }
  rewrite Hgeo.
  destruct ips as [|ip ips], hosts as [|host hosts]; cbn [length Nat.ltb Nat.leb];
    rewrite ?Hmap; [done|..];
    destruct (String.eqb geoCode (DefaultGeoCode routing));
    rewrite ?app_nil_r, ?fmap_app; simpl; rewrite <- ?app_assoc; reflexivity.
Qed.

Lemma chain_nil `{ShortCoder} namespacedName objectLabels routing hostname ips hosts :
  chain namespacedName objectLabels routing hostname ips hosts = [] ↔ ips = [] ∧ hosts = [].
Proof.
  unfold chain. split.
  - destruct ips, hosts; [done| | |]; intros Hnil; exfalso;
      repeat (apply app_eq_nil in Hnil as [? Hnil]); discriminate.
  - by intros [-> ->].
Qed.

(** What a call with a valid load-balanced routing and labels returns. *)
Lemma GenerateEndpoints_loadbalanced `{ShortCoder} (addresses : mapRange) namespacedName
    (objectLabels : gmap string string) hostname routing endpoints :
  Strategy routing = LoadBalancedRoutingStrategy →
  GenerateEndpoints addresses namespacedName (Some objectLabels) hostname routing
    = Ok endpoints →
  endpoints = Go.Slice lessSetID
    (chain namespacedName (Some objectLabels) routing hostname
       (targetsFromAddresses addresses).1 (targetsFromAddresses addresses).2).
Proof.
  intros Hs. unfold GenerateEndpoints. rewrite Hs.
  destruct (String.eqb hostname ""); [discriminate|].
  destruct (Validate routing); [discriminate|]. simpl.
  intros [= <-]. by rewrite getLoadBalancedEndpoints_chain.
Qed.

Lemma elem_of_Slice_lessSetID (l : list Endpoint) e : e ∈ Go.Slice lessSetID l ↔ e ∈ l.
Proof. by rewrite (Slice_perm lessSetID l). Qed.

(** ** Weight resolution *)

Lemma weightFrom_skip weight pre rest objectLabels :
  Forall (passesOver objectLabels) pre →
  weightFrom weight (pre ++ rest) objectLabels = weightFrom weight rest objectLabels.
Proof.
  induction 1 as [|cw pre (sel & Hsel & Hmatch) _ IH]; [done|].
  simpl. by rewrite Hsel, Hmatch.
Qed.

Lemma getWeight_first_match r objectLabels pre cw post :
  CustomWeights r = pre ++ cw :: post → Forall (passesOver objectLabels) pre →
  selects objectLabels cw → getWeight r objectLabels = Weight cw.
Proof.
  intros Hcws Hpre (sel & Hsel & Hmatch). unfold getWeight.
  rewrite Hcws, weightFrom_skip by done. simpl. by rewrite Hsel, Hmatch.
Qed.

Lemma getWeight_malformed r objectLabels pre cw post :
  CustomWeights r = pre ++ cw :: post → Forall (passesOver objectLabels) pre →
  malformed cw → getWeight r objectLabels = DefaultWeight r.
Proof.
  intros Hcws Hpre Hbad. unfold getWeight.
  rewrite Hcws, weightFrom_skip by done. simpl. by rewrite Hbad.
Qed.

Lemma getWeight_no_match r objectLabels :
  Forall (passesOver objectLabels) (CustomWeights r) →
  getWeight r objectLabels = DefaultWeight r.
Proof.
  intros Hall. unfold getWeight.
  rewrite <- (app_nil_r (CustomWeights r)). by rewrite weightFrom_skip.
Qed.

(** A selector made of the single match label [k = v]. *)
Lemma single_label_selector k v (objectLabels : gmap string string) :
  labels.IsQualifiedName k = true → labels.IsValidLabelValue v = true →
  ∃ selector,
    labels.LabelSelectorAsSelector
      {| labels.MatchLabels := Some {[k := v]}; labels.MatchExpressions := None |}
      = Some selector
    ∧ labels.Matches selector (Some objectLabels) = bool_decide (objectLabels !! k = Some v).
Proof.
  intros Hk Hv. unfold labels.LabelSelectorAsSelector. cbn [labels.MatchLabels
    labels.MatchExpressions].
  change (default ∅ (Some ({[k := v]} : gmap string string))) with
    ({[k := v]} : gmap string string).
  change (default [] (@None (list labels.LabelSelectorRequirement))) with
    (@nil labels.LabelSelectorRequirement).
  rewrite map_to_list_singleton.
  cbn [length Nat.add Nat.eqb labels.collect fst snd].
  unfold labels.NewRequirement. cbn [length Nat.eqb forallb]. rewrite Hk, Hv.
  cbn [andb app]. eexists. split; [done|].
  unfold labels.Matches, labels.reqMatches, labels.hasValue.
  cbn [forallb labels.operator labels.key labels.strValues default existsb].
  unfold id. destruct (objectLabels !! k) as [v'|] eqn:E.
  - rewrite orb_false_r, andb_true_r. destruct (String.eqb_spec v' v) as [->|Hne].
    + by rewrite bool_decide_eq_true_2.
    + rewrite bool_decide_eq_false_2; [done|]. congruence.
  - by rewrite bool_decide_eq_false_2.
Qed.

Lemma weighted_in_chain `{ShortCoder} namespacedName objectLabels routing hostname ips hosts
    target :
  target ∈ hosts →
  weightedRecord (geoLbNameOf (getGeoFromLabel objectLabels) (lbNameOf hostname)) target
    (getWeight routing objectLabels)
  ∈ chain namespacedName objectLabels routing hostname ips hosts.
Proof.
  intros Hin. unfold chain.
  assert (hosts ≠ []) as Hne by (intros ->; by apply elem_of_nil in Hin).
  destruct ips, hosts; try done;
    (apply elem_of_app; right; apply elem_of_app; left;
     apply list_elem_of_fmap; eexists; split; [done|]; apply elem_of_app; by left).
Qed.

Lemma cluster_in_chain `{ShortCoder} namespacedName objectLabels routing hostname ips hosts :
  ips ≠ [] →
  clusterRecord (clusterLbNameOf namespacedName routing (lbNameOf hostname)) ips
    ∈ chain namespacedName objectLabels routing hostname ips hosts
  ∧ weightedRecord (geoLbNameOf (getGeoFromLabel objectLabels) (lbNameOf hostname))
      (clusterLbNameOf namespacedName routing (lbNameOf hostname))
      (getWeight routing objectLabels)
    ∈ chain namespacedName objectLabels routing hostname ips hosts.
Proof.
  intros Hne. unfold chain. destruct ips as [|ip ips]; [done|].
  split.
  - apply elem_of_app; left. destruct hosts; apply list_elem_of_here.
  - destruct hosts; (apply elem_of_app; right; apply elem_of_app; left;
      apply list_elem_of_fmap; eexists; split; [done|]; apply elem_of_app; right;
      apply list_elem_of_here).
Qed.

(** The ways a record gets into the chain. *)
Lemma elem_of_chain `{ShortCoder} namespacedName objectLabels routing hostname ips hosts e :
  e ∈ chain namespacedName objectLabels routing hostname ips hosts →
  let lbName := lbNameOf hostname in
  let geoCode := getGeoFromLabel objectLabels in
  let geoLbName := geoLbNameOf geoCode lbName in
  let clusterLbName := clusterLbNameOf namespacedName routing lbName in
  (ips ≠ [] ∧ e = clusterRecord clusterLbName ips)
  ∨ (∃ target, (target ∈ hosts ∨ ips ≠ [] ∧ target = clusterLbName)
               ∧ e = weightedRecord geoLbName target (getWeight routing objectLabels))
  ∨ e = geoRecord lbName geoLbName geoCode
  ∨ (geoCode = DefaultGeoCode routing ∧ e = defaultRecord lbName geoLbName)
  ∨ e = topRecord hostname lbName.
Proof.
  intros He. cbn zeta. unfold chain in He.
  assert (e ∈ match ips with
              | [] => []
              | _ => [clusterRecord (clusterLbNameOf namespacedName routing (lbNameOf hostname))
                        ips]
              end
              ++ ((λ target, weightedRecord
                     (geoLbNameOf (getGeoFromLabel objectLabels) (lbNameOf hostname)) target
                     (getWeight routing objectLabels))
                    <$> hosts ++ match ips with
                                 | [] => []
                                 | _ => [clusterLbNameOf namespacedName routing
                                           (lbNameOf hostname)]
                                 end)
              ++ [geoRecord (lbNameOf hostname)
                    (geoLbNameOf (getGeoFromLabel objectLabels) (lbNameOf hostname))
                    (getGeoFromLabel objectLabels)]
              ++ (if String.eqb (getGeoFromLabel objectLabels) (DefaultGeoCode routing)
                  then [defaultRecord (lbNameOf hostname)
                          (geoLbNameOf (getGeoFromLabel objectLabels) (lbNameOf hostname))]
                  else [])
              ++ [topRecord hostname (lbNameOf hostname)]) as He'.
  { destruct ips, hosts; [by apply elem_of_nil in He|done..]. }
  clear He. rewrite !elem_of_app in He'.
  destruct He' as [He|[He|[He|[He|He]]]].
  - left. destruct ips; [by apply elem_of_nil in He|].
    apply list_elem_of_singleton in He. done.
  - right; left. apply list_elem_of_fmap in He as (target & -> & Ht).
    exists target. split; [|done]. apply elem_of_app in Ht as [Ht|Ht]; [by left|].
    right. destruct ips; [by apply elem_of_nil in Ht|].
    apply list_elem_of_singleton in Ht. done.
  - do 2 right; left. by apply list_elem_of_singleton in He.
  - do 3 right; left.
    destruct (String.eqb_spec (getGeoFromLabel objectLabels) (DefaultGeoCode routing));
      [|by apply elem_of_nil in He].
    by apply list_elem_of_singleton in He.
  - do 4 right. by apply list_elem_of_singleton in He.
Qed.

Lemma geoRecord_no_weight lbName geoLbName geoCode :
  getProperty "weight" (ProviderSpecific (geoRecord lbName geoLbName geoCode)) = None.
Proof. unfold geoRecord. simpl. by destruct (String.eqb geoCode "default"). Qed.

(** C9, as amended: the weight of a load-balanced generation is the weight
    of the first custom weight, in declaration order, whose selector matches
    the labels of the object, provided the selectors of all the custom
    weights before it are well formed; it is the default weight when no
    custom weight matches, and also when the scan meets a custom weight with
    a malformed selector before any match.  In particular, with one custom
    weight selecting the label [k = v], an object labelled [k = v] gets the
    custom weight and an object without the label [k] gets the default
    weight.  That weight, in decimal, is the "weight" property of every
    geo-tier CNAME: there is one for each hostname-typed address and, when
    there are IP-typed addresses, one for the cluster name; and no other
    record of the result carries a "weight" property. *)
Theorem weight_on_geo_tier `{ShortCoder} (addresses : mapRange) namespacedName
    (objectLabels : gmap string string) hostname routing endpoints :
  Strategy routing = LoadBalancedRoutingStrategy →
  rangesOver (Addresses routing) addresses →
  GenerateEndpoints addresses namespacedName (Some objectLabels) hostname routing
    = Ok endpoints →
  let weight := getWeight routing (Some objectLabels) in
  let lbName := lbNameOf hostname in
  let geoLbName := geoLbNameOf (getGeoFromLabel (Some objectLabels)) lbName in
  (∀ pre cw post,
     CustomWeights routing = pre ++ cw :: post →
     Forall (passesOver (Some objectLabels)) pre →
     (selects (Some objectLabels) cw → weight = Weight cw)
     ∧ (malformed cw → weight = DefaultWeight routing))
  ∧ (Forall (passesOver (Some objectLabels)) (CustomWeights routing) →
     weight = DefaultWeight routing)
  ∧ (∀ k v cw,
       CustomWeights routing = [cw] →
       Selector cw = {| labels.MatchLabels := Some {[k := v]};
                        labels.MatchExpressions := None |} →
       labels.IsQualifiedName k = true → labels.IsValidLabelValue v = true →
       (objectLabels !! k = Some v → weight = Weight cw)
       ∧ (objectLabels !! k = None → weight = DefaultWeight routing))
  ∧ (∀ target, target ∈ hostAddresses (Addresses routing) →
       weightedRecord geoLbName target weight ∈ endpoints)
  ∧ (ipAddresses (Addresses routing) ≠ [] →
       weightedRecord geoLbName (clusterLbNameOf namespacedName routing lbName) weight
         ∈ endpoints)
  ∧ (∀ e, e ∈ endpoints → getProperty "weight" (ProviderSpecific e) ≠ None →
       ∃ target, e = weightedRecord geoLbName target weight).
Proof.
  intros Hs Hr Hgen. cbn zeta.
  pose proof (GenerateEndpoints_loadbalanced _ _ _ _ _ _ Hs Hgen) as ->.
  destruct (targetsFromAddresses_perm _ _ Hr) as [Hips Hhosts].
  split; [|split; [|split; [|split; [|split]]]].
  - intros pre cw post Hcws Hpre. split; intros Hcw.
    + by eapply getWeight_first_match.
    + by eapply getWeight_malformed.
  - apply getWeight_no_match.
  - intros k v cw Hcws Hsel Hk Hv.
    destruct (single_label_selector k v objectLabels Hk Hv) as (sel & Hconv & Hmatch).
    split; intros Hlook.
    + apply (getWeight_first_match _ _ [] cw []); [done | done |].
      exists sel. rewrite Hsel. split; [done|]. rewrite Hmatch.
      by apply bool_decide_eq_true_2.
    + apply getWeight_no_match. rewrite Hcws. repeat constructor.
      exists sel. rewrite Hsel. split; [done|]. rewrite Hmatch.
      apply bool_decide_eq_false_2. congruence.
  - intros target Ht. apply (proj2 (elem_of_Slice_lessSetID _ _)), weighted_in_chain. by rewrite Hhosts.
  - intros Hne. apply (proj2 (elem_of_Slice_lessSetID _ _)), cluster_in_chain.
    intros Hnil. rewrite Hnil in Hips. by apply Permutation_nil_l in Hips.
  - intros e He Hw. apply (proj1 (elem_of_Slice_lessSetID _ _)) in He.
    apply elem_of_chain in He as [[_ ->]|[(target & _ & ->)|[->|[[_ ->]| ->]]]].
    + done.
    + by exists target.
    + by rewrite geoRecord_no_weight in Hw.
    + done.
    + done.
Qed.

Lemma weight_on_geo_tier_witness :
  Strategy (lbRouting (Some twoIPs) [weightFOO]) = LoadBalancedRoutingStrategy
  ∧ rangesOver (Addresses (lbRouting (Some twoIPs) [weightFOO]))
      [("127.0.0.2", IPAddressType); ("127.0.0.1", IPAddressType)]
  ∧ ∃ endpoints,
      GenerateEndpoints (H := testShortCoder)
        [("127.0.0.2", IPAddressType); ("127.0.0.1", IPAddressType)] TestNamespacedName
        (Some labelsFOO) "test.example.com" (lbRouting (Some twoIPs) [weightFOO])
        = Ok endpoints
      ∧ getWeight (lbRouting (Some twoIPs) [weightFOO]) (Some labelsFOO) = 100
      ∧ weightedRecord
          (geoLbNameOf (getGeoFromLabel (Some labelsFOO)) (lbNameOf "test.example.com"))
          (clusterLbNameOf (H := testShortCoder) TestNamespacedName
             (lbRouting (Some twoIPs) [weightFOO]) (lbNameOf "test.example.com"))
          (getWeight (lbRouting (Some twoIPs) [weightFOO]) (Some labelsFOO))
        ∈ endpoints.
Proof.
  assert (rangesOver (Addresses (lbRouting (Some twoIPs) [weightFOO]))
      [("127.0.0.2", IPAddressType); ("127.0.0.1", IPAddressType)]) as Hr.
  { unfold rangesOver. vm_compute. apply perm_swap. }
  split; [reflexivity|]. split; [exact Hr|].
  destruct (GenerateEndpoints (H := testShortCoder)
        [("127.0.0.2", IPAddressType); ("127.0.0.1", IPAddressType)] TestNamespacedName
        (Some labelsFOO) "test.example.com" (lbRouting (Some twoIPs) [weightFOO]))
    as [endpoints|msg] eqn:Hgen; [|vm_compute in Hgen; discriminate Hgen].
  exists endpoints. split; [reflexivity|].
  pose proof (weight_on_geo_tier (H := testShortCoder)
        [("127.0.0.2", IPAddressType); ("127.0.0.1", IPAddressType)] TestNamespacedName
        labelsFOO "test.example.com" (lbRouting (Some twoIPs) [weightFOO]) endpoints
        eq_refl Hr Hgen) as T.
  cbn zeta in T. destruct T as (_ & _ & Hsingle & _ & Hcluster & _).
  split.
  - refine (proj1 (Hsingle "kuadrant.io/my-custom-weight-attr" "FOO" weightFOO
                     eq_refl eq_refl _ _) _); vm_compute; reflexivity.
  - apply Hcluster. vm_compute. discriminate.
Defined.

(** C9 as stated fails: the second custom weight is the first one whose
    selector matches the labels of the object, and its weight is 100; the
    selector of the custom weight before it is malformed, and the geo-tier
    CNAME carries the default weight 120. *)
Lemma weight_first_match_counterexample :
  CustomWeights (lbRouting (Some oneHost) [weightGt; weightFOO]) = [weightGt; weightFOO]
  ∧ ¬ selects (Some labelsFOO) weightGt
  ∧ selects (Some labelsFOO) weightFOO
  ∧ Weight weightFOO = 100
  ∧ GenerateEndpoints (H := testShortCoder) [("pat.the.cat", "Hostname")] TestNamespacedName
      (Some labelsFOO) "test.example.com" (lbRouting (Some oneHost) [weightGt; weightFOO])
    = Ok [ {| DNSName := "ie.klb.test.example.com"; Targets := ["pat.the.cat"];
              RecordType := "CNAME"; SetIdentifier := "pat.the.cat"; RecordTTL := 60;
              ProviderSpecific := [("weight", "120")] |};
           {| DNSName := "klb.test.example.com"; Targets := ["ie.klb.test.example.com"];
              RecordType := "CNAME"; SetIdentifier := "IE"; RecordTTL := 300;
              ProviderSpecific := [("geo-code", "IE")] |};
           {| DNSName := "klb.test.example.com"; Targets := ["ie.klb.test.example.com"];
              RecordType := "CNAME"; SetIdentifier := "default"; RecordTTL := 300;
              ProviderSpecific := [("geo-code", "*")] |};
           {| DNSName := "test.example.com"; Targets := ["klb.test.example.com"];
              RecordType := "CNAME"; SetIdentifier := ""; RecordTTL := 300;
              ProviderSpecific := [] |} ].
Proof.
  split; [reflexivity|]. split.
  { intros (sel & Hsel & _). vm_compute in Hsel. discriminate Hsel. }
  split.
  { eexists. split; vm_compute; reflexivity. }
  split; [reflexivity|]. vm_compute. reflexivity.
Qed.

(** ** The names of the chain are apart *)

Lemma lbNameOf_ne_hostname hostname : lbNameOf hostname ≠ hostname.
Proof.
  unfold lbNameOf, cnameHostOf, isWildCardHost, Go.HasPrefix.
  destruct hostname as [|c rest].
  - discriminate.
  - cbn [String.prefix]. destruct (ascii_dec "*" c) as [<-|Hc].
    + destruct rest; rewrite !append_cons; cbn [Go.ToLower]; intros [= Hk _];
        vm_compute in Hk; discriminate Hk.
    + intros Heq. apply (f_equal String.length) in Heq.
      rewrite ToLower_length, append_length in Heq. simpl in Heq. lia.
Qed.

Lemma geoLbNameOf_ne_lbName geoCode lbName : geoLbNameOf geoCode lbName ≠ lbName.
Proof.
  unfold geoLbNameOf. intros Heq. apply (f_equal String.length) in Heq.
  rewrite ToLower_length, !append_length in Heq. simpl in Heq. lia.
Qed.

Lemma filter_none {A} (P : A → Prop) `{∀ x, Decision (P x)} (l : list A) :
  Forall (λ x, ¬ P x) l → filter P l = [].
Proof.
  induction 1 as [|x l Hx _ IH]; [done|]. by rewrite filter_cons_False.
Qed.

(** The CNAME records of the chain at the load-balancer name. *)
Lemma chain_cnames_at_lbName `{ShortCoder} namespacedName objectLabels routing hostname
    ips hosts :
  ips ≠ [] ∨ hosts ≠ [] →
  filter (cnameAt (lbNameOf hostname))
    (chain namespacedName objectLabels routing hostname ips hosts)
  = geoRecord (lbNameOf hostname)
      (geoLbNameOf (getGeoFromLabel objectLabels) (lbNameOf hostname))
      (getGeoFromLabel objectLabels)
    :: (if String.eqb (getGeoFromLabel objectLabels) (DefaultGeoCode routing)
        then [defaultRecord (lbNameOf hostname)
                (geoLbNameOf (getGeoFromLabel objectLabels) (lbNameOf hostname))]
        else []).
Proof.
  intros Hne. unfold chain.
  set (lbName := lbNameOf hostname). set (geoCode := getGeoFromLabel objectLabels).
  set (geoLbName := geoLbNameOf geoCode lbName).
  set (clusterLbName := clusterLbNameOf namespacedName routing lbName).
  set (cluster := match ips with [] => [] | _ => [clusterRecord clusterLbName ips] end).
  set (extra := match ips with [] => [] | _ => [clusterLbName] end).
  assert (filter (cnameAt lbName) cluster = []) as Hcluster.
  { apply filter_none. subst cluster. destruct ips; repeat constructor.
    by intros [_ ?]. }
  assert (filter (cnameAt lbName)
            ((λ target, weightedRecord geoLbName target (getWeight routing objectLabels))
               <$> hosts ++ extra) = []) as Htier.
  { apply filter_none, Forall_fmap, Forall_forall. intros target _ [Hname _].
    by apply (geoLbNameOf_ne_lbName geoCode lbName). }
  assert (filter (cnameAt lbName) [topRecord hostname lbName] = []) as Htop.
  { apply filter_none. repeat constructor. intros [Hname _].
    by apply (lbNameOf_ne_hostname hostname). }
  assert (filter (cnameAt lbName) [geoRecord lbName geoLbName geoCode]
          = [geoRecord lbName geoLbName geoCode]) as Hgeo.
  { by rewrite filter_cons_True. }
  assert (filter (cnameAt lbName) [defaultRecord lbName geoLbName]
          = [defaultRecord lbName geoLbName]) as Hdefault.
  { by rewrite filter_cons_True. }
  assert (filter (cnameAt lbName)
            (cluster
             ++ ((λ target, weightedRecord geoLbName target (getWeight routing objectLabels))
                   <$> hosts ++ extra)
             ++ [geoRecord lbName geoLbName geoCode]
             ++ (if String.eqb geoCode (DefaultGeoCode routing)
                 then [defaultRecord lbName geoLbName] else [])
             ++ [topRecord hostname lbName])
          = geoRecord lbName geoLbName geoCode
            :: (if String.eqb geoCode (DefaultGeoCode routing)
                then [defaultRecord lbName geoLbName] else [])) as Hall.
  { rewrite !filter_app, Hcluster, Htier, Hgeo, Htop.
    destruct (String.eqb geoCode (DefaultGeoCode routing)); by rewrite ?Hdefault. }
  destruct ips, hosts; [by destruct Hne | exact Hall..].
Qed.

Lemma chain_last `{ShortCoder} namespacedName objectLabels routing hostname ips hosts :
  ips ≠ [] ∨ hosts ≠ [] →
  last (chain namespacedName objectLabels routing hostname ips hosts)
  = Some (topRecord hostname (lbNameOf hostname)).
Proof.
  intros Hne. unfold chain.
  destruct ips, hosts; [by destruct Hne|..]; by rewrite !app_assoc, last_snoc.
Qed.

Lemma rangesOver_nonempty m (addresses : mapRange) :
  rangesOver m addresses → default ∅ m ≠ ∅ →
  (targetsFromAddresses addresses).1 ≠ [] ∨ (targetsFromAddresses addresses).2 ≠ [].
Proof.
  intros Hr Hm.
  destruct (targetsFromAddresses addresses) as [ips hosts] eqn:E.
  destruct ips; [|by left]. destruct hosts; [|by right].
  apply targetsFromAddresses_nil in E. subst addresses.
  unfold rangesOver in Hr. symmetry in Hr. apply Permutation_nil_r in Hr.
  by apply map_to_list_empty_iff in Hr.
Qed.

Lemma rangesOver_no_address m (addresses : mapRange) :
  rangesOver m addresses → default ∅ m = ∅ → targetsFromAddresses addresses = ([], []).
Proof.
  unfold rangesOver. intros Hr Hm. rewrite Hm, map_to_list_empty in Hr.
  by apply Permutation_nil_r in Hr as ->.
Qed.

(** The CNAME records at the load-balancer name of a load-balanced
    generation. *)
Lemma GenerateEndpoints_cnames_at_lbName `{ShortCoder} (addresses : mapRange) namespacedName
    (objectLabels : gmap string string) hostname routing endpoints :
  Strategy routing = LoadBalancedRoutingStrategy →
  rangesOver (Addresses routing) addresses →
  GenerateEndpoints addresses namespacedName (Some objectLabels) hostname routing
    = Ok endpoints →
  (default ∅ (Addresses routing) = ∅ → endpoints = [])
  ∧ (default ∅ (Addresses routing) ≠ ∅ →
     filter (cnameAt (lbNameOf hostname)) endpoints
     ≡ₚ geoRecord (lbNameOf hostname)
          (geoLbNameOf (getGeoFromLabel (Some objectLabels)) (lbNameOf hostname))
          (getGeoFromLabel (Some objectLabels))
        :: (if String.eqb (getGeoFromLabel (Some objectLabels)) (DefaultGeoCode routing)
            then [defaultRecord (lbNameOf hostname)
                    (geoLbNameOf (getGeoFromLabel (Some objectLabels)) (lbNameOf hostname))]
            else [])).
Proof.
  intros Hs Hr Hgen.
  pose proof (GenerateEndpoints_loadbalanced _ _ _ _ _ _ Hs Hgen) as ->.
  split.
  - intros Hm. by rewrite (rangesOver_no_address _ _ Hr Hm).
  - intros Hm. rewrite (Slice_perm lessSetID).
    by rewrite chain_cnames_at_lbName by (by eapply rangesOver_nonempty).
Qed.

(** ** Geo records at the load-balancer name *)

(** C3, as amended: a load-balanced generation over an empty address map
    returns no record.  Over a non-empty address map the CNAME records of
    the result at [lbName] are exactly these: one with the geo code of the
    object as set identifier, which carries that geo code as "geo-code"
    property unless the geo code is the sentinel "default" of an unlabelled
    object (then it carries no property); and, only when the geo code of
    the object equals the default geo code of the routing, a second one with
    set identifier "default" and "geo-code" property "*". *)
Theorem default_geo_duplication `{ShortCoder} (addresses : mapRange) namespacedName
    (objectLabels : gmap string string) hostname routing endpoints :
  Strategy routing = LoadBalancedRoutingStrategy →
  rangesOver (Addresses routing) addresses →
  GenerateEndpoints addresses namespacedName (Some objectLabels) hostname routing
    = Ok endpoints →
  let geoCode := getGeoFromLabel (Some objectLabels) in
  let lbName := lbNameOf hostname in
  let geoLbName := geoLbNameOf geoCode lbName in
  (default ∅ (Addresses routing) = ∅ → endpoints = [])
  ∧ (default ∅ (Addresses routing) ≠ ∅ →
     (geoCode = DefaultGeoCode routing →
      filter (cnameAt lbName) endpoints
      ≡ₚ [geoRecord lbName geoLbName geoCode; defaultRecord lbName geoLbName])
     ∧ (geoCode ≠ DefaultGeoCode routing →
        filter (cnameAt lbName) endpoints = [geoRecord lbName geoLbName geoCode])).
Proof.
  intros Hs Hr Hgen. cbn zeta.
  destruct (GenerateEndpoints_cnames_at_lbName _ _ _ _ _ _ Hs Hr Hgen) as [Hnone Hsome].
  split; [exact Hnone|]. intros Hm. specialize (Hsome Hm). split; intros Hgeo.
  - apply String.eqb_eq in Hgeo. by rewrite Hgeo in Hsome.
  - apply String.eqb_neq in Hgeo. rewrite Hgeo in Hsome.
    by apply Permutation_singleton_r in Hsome.
Qed.

Lemma default_geo_duplication_witness :
  Strategy (lbRouting (Some twoIPs) []) = LoadBalancedRoutingStrategy
  ∧ rangesOver (Addresses (lbRouting (Some twoIPs) []))
      [("127.0.0.1", IPAddressType); ("127.0.0.2", IPAddressType)]
  ∧ ∃ endpoints,
      GenerateEndpoints (H := testShortCoder)
        [("127.0.0.1", IPAddressType); ("127.0.0.2", IPAddressType)] TestNamespacedName
        (Some (geoLabels "IE")) "test.example.com" (lbRouting (Some twoIPs) []) = Ok endpoints
      ∧ filter (cnameAt (lbNameOf "test.example.com")) endpoints
        ≡ₚ [geoRecord (lbNameOf "test.example.com")
              (geoLbNameOf (getGeoFromLabel (Some (geoLabels "IE")))
                 (lbNameOf "test.example.com"))
              (getGeoFromLabel (Some (geoLabels "IE")));
            defaultRecord (lbNameOf "test.example.com")
              (geoLbNameOf (getGeoFromLabel (Some (geoLabels "IE")))
                 (lbNameOf "test.example.com"))].
Proof.
  assert (rangesOver (Addresses (lbRouting (Some twoIPs) []))
      [("127.0.0.1", IPAddressType); ("127.0.0.2", IPAddressType)]) as Hr.
  { unfold rangesOver. vm_compute. reflexivity. }
  split; [reflexivity|]. split; [exact Hr|].
  destruct (GenerateEndpoints (H := testShortCoder)
        [("127.0.0.1", IPAddressType); ("127.0.0.2", IPAddressType)] TestNamespacedName
        (Some (geoLabels "IE")) "test.example.com" (lbRouting (Some twoIPs) []))
    as [endpoints|msg] eqn:Hgen; [|vm_compute in Hgen; discriminate Hgen].
  exists endpoints. split; [reflexivity|].
  pose proof (default_geo_duplication (H := testShortCoder)
        [("127.0.0.1", IPAddressType); ("127.0.0.2", IPAddressType)] TestNamespacedName
        (geoLabels "IE") "test.example.com" (lbRouting (Some twoIPs) []) endpoints
        eq_refl Hr Hgen) as T.
  cbn zeta in T. destruct T as [_ T].
  refine (proj1 (T _) _).
  - apply insert_non_empty.
  - vm_compute. reflexivity.
Defined.

(** C3 as stated fails: the object has no geo label, so that its geo code
    "default" differs from the default geo code "IE" of the routing; the
    one CNAME at [klb.example.com] carries no "geo-code" property. *)
Lemma default_geo_duplication_counterexample :
  getGeoFromLabel (Some ∅) ≠ DefaultGeoCode (lbRouting (Some oneHost) [])
  ∧ lbNameOf "*.example.com" = "klb.example.com"
  ∧ GenerateEndpoints (H := testShortCoder) [("pat.the.cat", "Hostname")] TestNamespacedName
      (Some ∅) "*.example.com" (lbRouting (Some oneHost) [])
    = Ok [ {| DNSName := "*.example.com"; Targets := ["klb.example.com"];
              RecordType := "CNAME"; SetIdentifier := ""; RecordTTL := 300;
              ProviderSpecific := [] |};
           {| DNSName := "default.klb.example.com"; Targets := ["pat.the.cat"];
              RecordType := "CNAME"; SetIdentifier := "pat.the.cat"; RecordTTL := 60;
              ProviderSpecific := [("weight", "120")] |};
           {| DNSName := "klb.example.com"; Targets := ["default.klb.example.com"];
              RecordType := "CNAME"; SetIdentifier := "default"; RecordTTL := 300;
              ProviderSpecific := [] |} ].
Proof. split; [|split]; vm_compute; [discriminate | reflexivity | reflexivity]. Qed.

(** ** An object without the geo label *)

(** C2, as amended: when the labels of the object do not contain the geo
    label, the geo code is the sentinel "default"; a load-balanced
    generation over a non-empty address map then returns, as CNAME records at
    [lbName], the record with set identifier "default" that carries no
    provider-specific property, and a second record with set identifier
    "default" carrying "geo-code" = "*" exactly when the default geo code of
    the routing is "default" as well. *)
Theorem missing_geo_label `{ShortCoder} (addresses : mapRange) namespacedName
    (objectLabels : gmap string string) hostname routing endpoints :
  Strategy routing = LoadBalancedRoutingStrategy →
  rangesOver (Addresses routing) addresses →
  objectLabels !! LabelLBAttributeGeoCode = None →
  default ∅ (Addresses routing) ≠ ∅ →
  GenerateEndpoints addresses namespacedName (Some objectLabels) hostname routing
    = Ok endpoints →
  let lbName := lbNameOf hostname in
  let geoLbName := geoLbNameOf "default" lbName in
  let unlabelled :=
    {| DNSName := lbName; Targets := [geoLbName]; RecordType := "CNAME";
       SetIdentifier := "default"; RecordTTL := 300; ProviderSpecific := [] |} in
  getGeoFromLabel (Some objectLabels) = DefaultGeo
  ∧ (DefaultGeoCode routing = "default" →
     filter (cnameAt lbName) endpoints ≡ₚ [unlabelled; defaultRecord lbName geoLbName])
  ∧ (DefaultGeoCode routing ≠ "default" →
     filter (cnameAt lbName) endpoints = [unlabelled]).
Proof.
  intros Hs Hr Hlabel Hm Hgen. cbn zeta.
  assert (getGeoFromLabel (Some objectLabels) = "default") as Hgeo.
  { unfold getGeoFromLabel. cbn. by rewrite Hlabel. }
  destruct (GenerateEndpoints_cnames_at_lbName _ _ _ _ _ _ Hs Hr Hgen) as [_ Hsome].
  specialize (Hsome Hm). rewrite Hgeo in Hsome.
  split; [exact Hgeo|]. split; intros Hd.
  - rewrite Hd in Hsome. exact Hsome.
  - assert (String.eqb "default" (DefaultGeoCode routing) = false) as Hne.
    { apply String.eqb_neq. congruence. }
    rewrite Hne in Hsome. by apply Permutation_singleton_r in Hsome.
Qed.

Lemma missing_geo_label_witness :
  Strategy (lbRouting (Some oneHost) []) = LoadBalancedRoutingStrategy
  ∧ rangesOver (Addresses (lbRouting (Some oneHost) [])) [("pat.the.cat", "Hostname")]
  ∧ (∅ : gmap string string) !! LabelLBAttributeGeoCode = None
  ∧ default ∅ (Addresses (lbRouting (Some oneHost) [])) ≠ ∅
  ∧ ∃ endpoints,
      GenerateEndpoints (H := testShortCoder) [("pat.the.cat", "Hostname")]
        TestNamespacedName (Some ∅) "test.example.com" (lbRouting (Some oneHost) [])
        = Ok endpoints
      ∧ getGeoFromLabel (Some ∅) = DefaultGeo
      ∧ filter (cnameAt (lbNameOf "test.example.com")) endpoints
        = [ {| DNSName := lbNameOf "test.example.com";
               Targets := [geoLbNameOf "default" (lbNameOf "test.example.com")];
               RecordType := "CNAME"; SetIdentifier := "default"; RecordTTL := 300;
               ProviderSpecific := [] |} ].
Proof.
  assert (rangesOver (Addresses (lbRouting (Some oneHost) [])) [("pat.the.cat", "Hostname")])
    as Hr.
  { unfold rangesOver. vm_compute. reflexivity. }
  assert (default ∅ (Addresses (lbRouting (Some oneHost) [])) ≠ ∅) as Hm
    by apply insert_non_empty.
  split; [reflexivity|]. split; [exact Hr|]. split; [reflexivity|]. split; [exact Hm|].
  destruct (GenerateEndpoints (H := testShortCoder) [("pat.the.cat", "Hostname")]
        TestNamespacedName (Some ∅) "test.example.com" (lbRouting (Some oneHost) []))
    as [endpoints|msg] eqn:Hgen; [|vm_compute in Hgen; discriminate Hgen].
  exists endpoints. split; [reflexivity|].
  pose proof (missing_geo_label (H := testShortCoder) [("pat.the.cat", "Hostname")]
        TestNamespacedName ∅ "test.example.com" (lbRouting (Some oneHost) []) endpoints
        eq_refl Hr eq_refl Hm Hgen) as T.
  cbn zeta in T. destruct T as (Hgeo & _ & Hone).
  split; [exact Hgeo|]. apply Hone. discriminate.
Defined.

(** C2 as stated fails: the labels of the object hold no geo label and the
    default geo code of the routing is "IE"; no record of the result carries
    "geo-code" = "*". *)
Lemma missing_geo_label_counterexample :
  (∅ : gmap string string) !! LabelLBAttributeGeoCode = None
  ∧ GenerateEndpoints (H := testShortCoder) [("pat.the.cat", "Hostname")] TestNamespacedName
      (Some ∅) "test.example.com" (lbRouting (Some oneHost) [])
    = Ok [ {| DNSName := "default.klb.test.example.com"; Targets := ["pat.the.cat"];
              RecordType := "CNAME"; SetIdentifier := "pat.the.cat"; RecordTTL := 60;
              ProviderSpecific := [("weight", "120")] |};
           {| DNSName := "klb.test.example.com"; Targets := ["default.klb.test.example.com"];
              RecordType := "CNAME"; SetIdentifier := "default"; RecordTTL := 300;
              ProviderSpecific := [] |};
           {| DNSName := "test.example.com"; Targets := ["klb.test.example.com"];
              RecordType := "CNAME"; SetIdentifier := ""; RecordTTL := 300;
              ProviderSpecific := [] |} ].
Proof. split; [reflexivity|]. vm_compute. reflexivity. Qed.

(** ** Wildcard hostnames *)

Lemma replaceFrom_absent old new s :
  occursIn old s = false → Go.replaceFrom old new 0 s = s.
Proof.
  induction s as [|c s IH]; [done|].
  cbn [occursIn Go.replaceFrom]. intros Hocc.
  apply orb_false_elim in Hocc as [Hpre Hrest]. rewrite Hpre. by rewrite IH.
Qed.

Lemma cnameHostOf_wildcard rest :
  cnameHostOf ("*." +:+ rest) = Go.ReplaceAll rest "*." "".
Proof. unfold cnameHostOf, Go.ReplaceAll. by destruct rest. Qed.

(** C4, as amended: for a hostname that begins with the wildcard label
    ["*."], the load-balancer name is ["klb."] followed by the hostname with
    every occurrence of ["*."] removed, lower-cased; when ["*."] occurs only
    as the leading label this is ["klb."] followed by the rest of the
    hostname, lower-cased.  Over a non-empty address map the load-balanced
    generator emits last, before the final sort, the CNAME at the original
    wildcard hostname pointing to the load-balancer name, and the result
    contains it. *)
Theorem wildcard_normalization `{ShortCoder} (addresses : mapRange) namespacedName
    (objectLabels : gmap string string) hostname routing endpoints rest :
  hostname = "*." +:+ rest →
  Strategy routing = LoadBalancedRoutingStrategy →
  rangesOver (Addresses routing) addresses →
  GenerateEndpoints addresses namespacedName (Some objectLabels) hostname routing
    = Ok endpoints →
  lbNameOf hostname = Go.ToLower ("klb." +:+ Go.ReplaceAll rest "*." "")
  ∧ (occursIn "*." rest = false → lbNameOf hostname = Go.ToLower ("klb." +:+ rest))
  ∧ (default ∅ (Addresses routing) ≠ ∅ →
     last (getLoadBalancedEndpoints addresses namespacedName (Some objectLabels) routing
             hostname)
     = Some {| DNSName := hostname; Targets := [lbNameOf hostname]; RecordType := "CNAME";
               SetIdentifier := ""; RecordTTL := 300; ProviderSpecific := [] |}
     ∧ {| DNSName := hostname; Targets := [lbNameOf hostname]; RecordType := "CNAME";
          SetIdentifier := ""; RecordTTL := 300; ProviderSpecific := [] |} ∈ endpoints).
Proof.
  intros Hhost Hs Hr Hgen.
  assert (lbNameOf hostname = Go.ToLower ("klb." +:+ Go.ReplaceAll rest "*." "")) as Hlb.
  { unfold lbNameOf. by rewrite Hhost, cnameHostOf_wildcard. }
  split; [exact Hlb|]. split.
  - intros Hocc. rewrite Hlb. unfold Go.ReplaceAll. by rewrite replaceFrom_absent.
  - intros Hm. pose proof (rangesOver_nonempty _ _ Hr Hm) as Hne.
    pose proof (chain_last namespacedName (Some objectLabels) routing hostname _ _ Hne)
      as Hlast.
    split.
    + by rewrite getLoadBalancedEndpoints_chain.
    + rewrite (GenerateEndpoints_loadbalanced _ _ _ _ _ _ Hs Hgen).
      apply (proj2 (elem_of_Slice_lessSetID _ _)).
      apply last_Some in Hlast as [l' ->]. apply elem_of_app. right.
      apply list_elem_of_here.
Qed.

Lemma wildcard_normalization_witness :
  "*.Example.com" = "*." +:+ "Example.com"
  ∧ Strategy (lbRouting (Some oneHost) []) = LoadBalancedRoutingStrategy
  ∧ rangesOver (Addresses (lbRouting (Some oneHost) [])) [("pat.the.cat", "Hostname")]
  ∧ ∃ endpoints,
      GenerateEndpoints (H := testShortCoder) [("pat.the.cat", "Hostname")]
        TestNamespacedName (Some (geoLabels "IE")) "*.Example.com"
        (lbRouting (Some oneHost) []) = Ok endpoints
      ∧ lbNameOf "*.Example.com" = Go.ToLower ("klb." +:+ "Example.com")
      ∧ {| DNSName := "*.Example.com"; Targets := [lbNameOf "*.Example.com"];
           RecordType := "CNAME"; SetIdentifier := ""; RecordTTL := 300;
           ProviderSpecific := [] |} ∈ endpoints.
Proof.
  assert (rangesOver (Addresses (lbRouting (Some oneHost) [])) [("pat.the.cat", "Hostname")])
    as Hr.
  { unfold rangesOver. vm_compute. reflexivity. }
  split; [reflexivity|]. split; [reflexivity|]. split; [exact Hr|].
  destruct (GenerateEndpoints (H := testShortCoder) [("pat.the.cat", "Hostname")]
        TestNamespacedName (Some (geoLabels "IE")) "*.Example.com"
        (lbRouting (Some oneHost) []))
    as [endpoints|msg] eqn:Hgen; [|vm_compute in Hgen; discriminate Hgen].
  exists endpoints. split; [reflexivity|].
  pose proof (wildcard_normalization (H := testShortCoder) [("pat.the.cat", "Hostname")]
        TestNamespacedName (geoLabels "IE") "*.Example.com" (lbRouting (Some oneHost) [])
        endpoints "Example.com" eq_refl eq_refl Hr Hgen) as (_ & Hrest & Htop).
  split.
  - apply Hrest. reflexivity.
  - apply Htop. apply insert_non_empty.
Defined.

(** C4 as stated fails: the hostname begins with a wildcard label, and
    stripping only that label leaves ["*.example.com"]; the load-balancer
    name is not ["klb.*.example.com"] but ["klb.example.com"], the second
    ["*."] being removed as well. *)
Lemma wildcard_normalization_counterexample :
  "*.*.example.com" = "*." +:+ "*.example.com"
  ∧ Go.ToLower ("klb." +:+ "*.example.com") = "klb.*.example.com"
  ∧ lbNameOf "*.*.example.com" = "klb.example.com"
  ∧ GenerateEndpoints (H := testShortCoder) [("pat.the.cat", "Hostname")] TestNamespacedName
      (Some (geoLabels "IE")) "*.*.example.com" (lbRouting (Some oneHost) [])
    = Ok [ {| DNSName := "*.*.example.com"; Targets := ["klb.example.com"];
              RecordType := "CNAME"; SetIdentifier := ""; RecordTTL := 300;
              ProviderSpecific := [] |};
           {| DNSName := "ie.klb.example.com"; Targets := ["pat.the.cat"];
              RecordType := "CNAME"; SetIdentifier := "pat.the.cat"; RecordTTL := 60;
              ProviderSpecific := [("weight", "120")] |};
           {| DNSName := "klb.example.com"; Targets := ["ie.klb.example.com"];
              RecordType := "CNAME"; SetIdentifier := "IE"; RecordTTL := 300;
              ProviderSpecific := [("geo-code", "IE")] |};
           {| DNSName := "klb.example.com"; Targets := ["ie.klb.example.com"];
              RecordType := "CNAME"; SetIdentifier := "default"; RecordTTL := 300;
              ProviderSpecific := [("geo-code", "*")] |} ].
Proof. repeat split; vm_compute; reflexivity. Qed.

(** ** Two calls on the same input *)

#[local] Instance sameRecord_refl : Reflexive sameRecord.
Proof. by intros e. Qed.

Lemma sameRecord_key a b : sameRecord a b → getSetID a = getSetID b.
Proof. intros (Hn & _ & _ & Hi & _). unfold getSetID. by rewrite Hn, Hi. Qed.

Lemma Forall2_sameRecord_keys l1 l2 :
  Forall2 sameRecord l1 l2 → getSetID <$> l1 = getSetID <$> l2.
Proof.
  induction 1 as [|a b l1 l2 Hab _ IH]; [done|].
  cbn. by rewrite (sameRecord_key _ _ Hab), IH.
Qed.

#[local] Instance leb_antisymm : AntiSymm eq (λ a b : string, String.leb a b = true).
Proof. intros a b. apply String.leb_antisym. Qed.

(** Lists with the same elements and the same, pairwise distinct, keys in
    the same order are equal. *)
Lemma perm_same_keys {A K} (key : A → K) (l k : list A) :
  l ≡ₚ k → key <$> l = key <$> k → NoDup (key <$> l) → l = k.
Proof.
  revert k. induction l as [|x l IH]; intros k Hperm Hkeys Hnodup.
  - by apply Permutation_nil_l in Hperm.
  - destruct k as [|y k]; [discriminate|].
    cbn in Hkeys. injection Hkeys as Hxy Hrest.
    cbn in Hnodup. apply NoDup_cons in Hnodup as [Hx Hnodup].
    assert (x ∈ y :: k) as Hin by (rewrite <- Hperm; apply list_elem_of_here).
    apply elem_of_cons in Hin as [->|Hin].
    + f_equal. apply IH; [by eapply Permutation_cons_inv | done | done].
    + exfalso. apply Hx. rewrite Hrest, Hxy.
      apply list_elem_of_fmap. exists x. split; [|done].
      (* the key of [x] is the key of [y] *) done.
Qed.

(** Sorting two lists with the same records up to the order of the records
    and of the targets. *)
Lemma Slice_related (L1 L2 : list Endpoint) :
  (∃ L2', L2 ≡ₚ L2' ∧ Forall2 sameRecord L1 L2') →
  (∃ l2', Go.Slice lessSetID L2 ≡ₚ l2' ∧ Forall2 sameRecord (Go.Slice lessSetID L1) l2')
  ∧ (NoDup (getSetID <$> Go.Slice lessSetID L1) →
     Forall2 sameRecord (Go.Slice lessSetID L1) (Go.Slice lessSetID L2)).
Proof.
  intros (L2' & Hperm & Hrel).
  destruct (Permutation_Forall2 (symmetry (Slice_perm lessSetID L1)) Hrel)
    as (l2' & Hperm' & Hrel').
  assert (Go.Slice lessSetID L2 ≡ₚ l2') as Hp.
  { by rewrite (Slice_perm lessSetID L2), Hperm. }
  split; [by exists l2'|]. intros Hnodup.
  pose proof (Forall2_sameRecord_keys _ _ Hrel') as Hkeys.
  assert (getSetID <$> Go.Slice lessSetID L2 = getSetID <$> Go.Slice lessSetID L1) as Hsame.
  { apply (StronglySorted_unique (λ a b : string, String.leb a b = true)).
    - apply (StronglySorted_fmap _ keyLe); [done | apply Slice_lessSetID_sorted].
    - apply (StronglySorted_fmap _ keyLe); [done | apply Slice_lessSetID_sorted].
    - by rewrite Hkeys, Hp. }
  assert (Go.Slice lessSetID L2 = l2') as ->; [|done].
  apply (perm_same_keys getSetID); [done | by rewrite Hsame, Hkeys | by rewrite Hsame].
Qed.

Lemma getSimpleEndpoints_related (o1 o2 : mapRange) hostname :
  o1 ≡ₚ o2 →
  Forall2 sameRecord (getSimpleEndpoints o1 hostname) (getSimpleEndpoints o2 hostname).
Proof.
  intros Hperm. unfold getSimpleEndpoints. rewrite !targetsFromAddresses_filter.
  set (ips1 := (filter _ o1).*1). set (hosts1 := (filter (λ kv, kv.2 ≠ _) o1).*1).
  set (ips2 := (filter _ o2).*1). set (hosts2 := (filter (λ kv, kv.2 ≠ _) o2).*1).
  assert (ips1 ≡ₚ ips2) as Hips by (subst ips1 ips2; by rewrite Hperm).
  assert (hosts1 ≡ₚ hosts2) as Hhosts by (subst hosts1 hosts2; by rewrite Hperm).
  apply Forall2_app.
  - destruct ips1, ips2;
      [done | by apply Permutation_nil_cons in Hips
       | symmetry in Hips; by apply Permutation_nil_cons in Hips |].
    repeat constructor; done.
  - destruct hosts1, hosts2;
      [done | by apply Permutation_nil_cons in Hhosts
       | symmetry in Hhosts; by apply Permutation_nil_cons in Hhosts |].
    repeat constructor; done.
Qed.

Lemma chain_related `{ShortCoder} namespacedName objectLabels routing hostname
    ips1 hosts1 ips2 hosts2 :
  ips1 ≡ₚ ips2 → hosts1 ≡ₚ hosts2 →
  ∃ L2', chain namespacedName objectLabels routing hostname ips2 hosts2 ≡ₚ L2'
         ∧ Forall2 sameRecord
             (chain namespacedName objectLabels routing hostname ips1 hosts1) L2'.
Proof.
  intros Hips Hhosts.
  exists (chain namespacedName objectLabels routing hostname ips2 hosts1). split.
  - unfold chain. destruct ips2.
    + destruct hosts1, hosts2;
        [done | by apply Permutation_nil_cons in Hhosts
         | symmetry in Hhosts; by apply Permutation_nil_cons in Hhosts |].
      by rewrite Hhosts.
    + destruct hosts1, hosts2;
        [done | by apply Permutation_nil_cons in Hhosts
         | symmetry in Hhosts; by apply Permutation_nil_cons in Hhosts |].
      by rewrite Hhosts.
  - unfold chain.
    destruct ips1 as [|ip1 ips1], ips2 as [|ip2 ips2];
      [| by apply Permutation_nil_cons in Hips
       | symmetry in Hips; by apply Permutation_nil_cons in Hips |].
    + reflexivity.
    + destruct hosts1; (apply Forall2_app; [|reflexivity]);
        repeat constructor; done.
Qed.

(** C1, as amended: for a fixed input two calls of [GenerateEndpoints],
    which may visit the address map in different orders, fail with the same
    error or both succeed; the two lists then hold the same records up to the
    order of the targets inside a record and the order of the records, and
    when the sort keys [dnsName + setIdentifier] of the returned records are
    pairwise distinct the lists agree record by record, the targets of a
    record up to their order. *)
Theorem generation_up_to_target_order `{ShortCoder} (order1 order2 : mapRange) namespacedName
    objectLabels hostname routing :
  rangesOver (Addresses routing) order1 → rangesOver (Addresses routing) order2 →
  match GenerateEndpoints order1 namespacedName objectLabels hostname routing,
        GenerateEndpoints order2 namespacedName objectLabels hostname routing with
  | Err msg1, Err msg2 => msg1 = msg2
  | Ok endpoints1, Ok endpoints2 =>
      (∃ endpoints2', endpoints2 ≡ₚ endpoints2' ∧ Forall2 sameRecord endpoints1 endpoints2')
      ∧ (NoDup (getSetID <$> endpoints1) → Forall2 sameRecord endpoints1 endpoints2)
  | _, _ => False
  end.
Proof.
  intros Hr1 Hr2.
  assert (order1 ≡ₚ order2) as Hperm by (unfold rangesOver in *; by rewrite Hr1, Hr2).
  unfold GenerateEndpoints.
  destruct (String.eqb hostname ""); [done|].
  destruct (Validate routing); [done|].
  destruct (String.eqb (Strategy routing) SimpleRoutingStrategy).
  { apply Slice_related. eexists. split; [done|]. by apply getSimpleEndpoints_related. }
  destruct (String.eqb (Strategy routing) LoadBalancedRoutingStrategy); [|done].
  destruct objectLabels; [|done].
  apply Slice_related. rewrite !getLoadBalancedEndpoints_chain.
  destruct (targetsFromAddresses_perm _ _ Hr1) as [Hi1 Hh1].
  destruct (targetsFromAddresses_perm _ _ Hr2) as [Hi2 Hh2].
  apply chain_related; [by rewrite Hi1, Hi2 | by rewrite Hh1, Hh2].
Qed.

Lemma generation_up_to_target_order_witness :
  rangesOver (Addresses (simpleRouting (Some twoIPs)))
    [("127.0.0.1", IPAddressType); ("127.0.0.2", IPAddressType)]
  ∧ rangesOver (Addresses (simpleRouting (Some twoIPs)))
      [("127.0.0.2", IPAddressType); ("127.0.0.1", IPAddressType)]
  ∧ match GenerateEndpoints (H := testShortCoder)
            [("127.0.0.1", IPAddressType); ("127.0.0.2", IPAddressType)] TestNamespacedName
            None "test.example.com" (simpleRouting (Some twoIPs)),
          GenerateEndpoints (H := testShortCoder)
            [("127.0.0.2", IPAddressType); ("127.0.0.1", IPAddressType)] TestNamespacedName
            None "test.example.com" (simpleRouting (Some twoIPs)) with
    | Err msg1, Err msg2 => msg1 = msg2
    | Ok endpoints1, Ok endpoints2 =>
        (∃ endpoints2', endpoints2 ≡ₚ endpoints2'
                        ∧ Forall2 sameRecord endpoints1 endpoints2')
        ∧ (NoDup (getSetID <$> endpoints1) → Forall2 sameRecord endpoints1 endpoints2)
    | _, _ => False
    end.
Proof.
  assert (rangesOver (Addresses (simpleRouting (Some twoIPs)))
    [("127.0.0.1", IPAddressType); ("127.0.0.2", IPAddressType)]) as Hr1.
  { unfold rangesOver. vm_compute. reflexivity. }
  assert (rangesOver (Addresses (simpleRouting (Some twoIPs)))
    [("127.0.0.2", IPAddressType); ("127.0.0.1", IPAddressType)]) as Hr2.
  { unfold rangesOver. vm_compute. apply perm_swap. }
  exact (conj Hr1 (conj Hr2
    (generation_up_to_target_order (H := testShortCoder)
       [("127.0.0.1", IPAddressType); ("127.0.0.2", IPAddressType)]
       [("127.0.0.2", IPAddressType); ("127.0.0.1", IPAddressType)]
       TestNamespacedName None "test.example.com" (simpleRouting (Some twoIPs)) Hr1 Hr2))).
Defined.

(** C1 as stated fails: two calls on the same input that visit the two
    addresses of the map in different orders return A records whose target
    lists are in different orders. *)
Lemma generation_not_identical_counterexample :
  rangesOver (Addresses (simpleRouting (Some twoIPs)))
    [("127.0.0.1", IPAddressType); ("127.0.0.2", IPAddressType)]
  ∧ rangesOver (Addresses (simpleRouting (Some twoIPs)))
      [("127.0.0.2", IPAddressType); ("127.0.0.1", IPAddressType)]
  ∧ GenerateEndpoints (H := testShortCoder)
      [("127.0.0.1", IPAddressType); ("127.0.0.2", IPAddressType)] TestNamespacedName
      None "test.example.com" (simpleRouting (Some twoIPs))
    = Ok [ {| DNSName := "test.example.com"; Targets := ["127.0.0.1"; "127.0.0.2"];
              RecordType := "A"; SetIdentifier := ""; RecordTTL := 60;
              ProviderSpecific := [] |} ]
  ∧ GenerateEndpoints (H := testShortCoder)
      [("127.0.0.2", IPAddressType); ("127.0.0.1", IPAddressType)] TestNamespacedName
      None "test.example.com" (simpleRouting (Some twoIPs))
    = Ok [ {| DNSName := "test.example.com"; Targets := ["127.0.0.2"; "127.0.0.1"];
              RecordType := "A"; SetIdentifier := ""; RecordTTL := 60;
              ProviderSpecific := [] |} ]
  ∧ GenerateEndpoints (H := testShortCoder)
      [("127.0.0.1", IPAddressType); ("127.0.0.2", IPAddressType)] TestNamespacedName
      None "test.example.com" (simpleRouting (Some twoIPs))
    ≠ GenerateEndpoints (H := testShortCoder)
        [("127.0.0.2", IPAddressType); ("127.0.0.1", IPAddressType)] TestNamespacedName
        None "test.example.com" (simpleRouting (Some twoIPs)).
Proof.
  split; [unfold rangesOver; vm_compute; reflexivity|].
  split; [unfold rangesOver; vm_compute; apply perm_swap|].
  split; [vm_compute; reflexivity|]. split; [vm_compute; reflexivity|].
  vm_compute. discriminate.
Qed.

(** * Further properties of the generator and of the builders *)

(** ** Outcome of a call *)

(** X1: [GenerateEndpoints] succeeds exactly when the hostname is not
    empty, the routing passes [Validate], and the strategy is Simple, or
    LoadBalanced with object labels that are not nil. *)
Theorem GenerateEndpoints_succeeds_iff `{ShortCoder} (addresses : mapRange) namespacedName
    objectLabels hostname routing :
  (∃ endpoints,
     GenerateEndpoints addresses namespacedName objectLabels hostname routing = Ok endpoints)
  ↔ hostname ≠ "" ∧ Validate routing = None
    ∧ (Strategy routing = SimpleRoutingStrategy
       ∨ Strategy routing = LoadBalancedRoutingStrategy ∧ objectLabels ≠ None).
Proof.
  unfold GenerateEndpoints.
  destruct (String.eqb_spec hostname "") as [Hh|Hh].
  { split; [intros [? ?]; discriminate | intros (? & _); done]. }
  destruct (Validate routing) as [err|].
  { split; [intros [? ?]; discriminate | intros (_ & ? & _); discriminate]. }
  destruct (String.eqb_spec (Strategy routing) SimpleRoutingStrategy) as [Hs|Hs].
  { split; [intros _; auto | intros _; eauto]. }
  destruct (String.eqb_spec (Strategy routing) LoadBalancedRoutingStrategy) as [Hl|Hl].
  - destruct objectLabels.
    + split; [intros _; split; [done|]; split; [done|]; right; done | eauto].
    + split; [intros [? ?]; discriminate | intros (_ & _ & [?|[_ ?]]); done].
  - split; [intros [? ?]; discriminate | intros (_ & _ & [?|[? _]]); done].
Qed.

(** X2: a routing whose strategy is neither Simple nor LoadBalanced never
    yields endpoints: with a non-empty hostname the call fails with the
    error of [Validate], or, when the routing passes [Validate], with
    "unknown routing strategy : " followed by the strategy. *)
Theorem unknown_strategy_rejected `{ShortCoder} (addresses : mapRange) namespacedName
    objectLabels hostname routing :
  hostname ≠ "" →
  Strategy routing ≠ SimpleRoutingStrategy →
  Strategy routing ≠ LoadBalancedRoutingStrategy →
  GenerateEndpoints addresses namespacedName objectLabels hostname routing
  = Err (match Validate routing with
         | Some err => err
         | None => "unknown routing strategy : " +:+ Strategy routing
         end).
Proof.
  intros Hh Hs Hl. unfold GenerateEndpoints.
  apply String.eqb_neq in Hh, Hs, Hl. rewrite Hh.
  destruct (Validate routing); [done|]. by rewrite Hs, Hl.
Qed.

Lemma unknown_strategy_rejected_witness :
  "test.example.com" ≠ ""
  ∧ Strategy catRouting ≠ SimpleRoutingStrategy
  ∧ Strategy catRouting ≠ LoadBalancedRoutingStrategy
  ∧ GenerateEndpoints (H := testShortCoder)
      [("127.0.0.1", IPAddressType); ("127.0.0.2", IPAddressType)] TestNamespacedName
      (Some labelsFOO) "test.example.com" catRouting
    = Err "unknown routing strategy : cat".
Proof.
  assert ("test.example.com" ≠ "") as Hh by discriminate.
  assert (Strategy catRouting ≠ SimpleRoutingStrategy) as Hs by discriminate.
  assert (Strategy catRouting ≠ LoadBalancedRoutingStrategy) as Hl by discriminate.
  exact (conj Hh (conj Hs (conj Hl
    (unknown_strategy_rejected (H := testShortCoder)
       [("127.0.0.1", IPAddressType); ("127.0.0.2", IPAddressType)] TestNamespacedName
       (Some labelsFOO) "test.example.com" catRouting Hh Hs Hl)))).
Defined.

(** ** Weights of a validated routing *)

Lemma Itoa_inj (a b : Z) : Go.Itoa a = Go.Itoa b → a = b.
Proof.
  unfold Go.Itoa. intros Heq.
  assert (∀ z, NilZero.int_of_string (NilZero.string_of_int (Z.to_int z))
               = Some (Z.to_int z)) as Hisi.
  { intros z. apply NilZero.isi; destruct z; simpl; try discriminate;
      intros [= Hnil]; by apply Unsigned.to_uint_nonnil in Hnil. }
  apply (f_equal NilZero.int_of_string) in Heq. rewrite !Hisi in Heq.
  injection Heq as Heq. apply (f_equal Z.of_int) in Heq. by rewrite !DecimalZ.of_to in Heq.
Qed.

Lemma weightFrom_cases weight cws objectLabels :
  weightFrom weight cws objectLabels = weight
  ∨ ∃ cw, cw ∈ cws ∧ weightFrom weight cws objectLabels = Weight cw.
Proof.
  induction cws as [|cw rest IH]; [by left|]. simpl.
  destruct (labels.LabelSelectorAsSelector (Selector cw)); [|by left].
  destruct (labels.Matches _ _).
  - right. exists cw. split; [apply list_elem_of_here | done].
  - destruct IH as [?|(cw' & Hin & ?)]; [by left|].
    right. exists cw'. split; [by apply list_elem_of_further | done].
Qed.

Lemma Validate_loadbalanced r :
  Strategy r = LoadBalancedRoutingStrategy → Validate r = None →
  provided r ∧ Forall acceptable (CustomWeights r).
Proof.
  intros Hs Hv.
  assert (Strategy r ≠ SimpleRoutingStrategy) as Hns by (rewrite Hs; discriminate).
  pose proof (ValidateSpec_complete r) as Hspec. rewrite Hv in Hspec.
  inversion Hspec; [congruence | done].
Qed.

(** X3: in a successful load-balanced generation the resolved weight is
    never zero, and every "weight" property in the result is its decimal
    rendering, which is not "0". *)
Theorem loadbalanced_weight_nonzero `{ShortCoder} (addresses : mapRange) namespacedName
    (objectLabels : gmap string string) hostname routing endpoints :
  Strategy routing = LoadBalancedRoutingStrategy →
  GenerateEndpoints addresses namespacedName (Some objectLabels) hostname routing
    = Ok endpoints →
  getWeight routing (Some objectLabels) ≠ 0
  ∧ ∀ e value, e ∈ endpoints → getProperty "weight" (ProviderSpecific e) = Some value →
      value = Go.Itoa (getWeight routing (Some objectLabels)) ∧ value ≠ "0".
Proof.
  intros Hs Hgen.
  assert (Validate routing = None) as Hv.
  { unfold GenerateEndpoints in Hgen. destruct (String.eqb hostname ""); [discriminate|].
    by destruct (Validate routing). }
  destruct (Validate_loadbalanced _ Hs Hv) as [(_ & _ & _ & Hw & _) Hcws].
  assert (getWeight routing (Some objectLabels) ≠ 0) as Hnz.
  { unfold getWeight.
    destruct (weightFrom_cases (DefaultWeight routing) (CustomWeights routing)
                (Some objectLabels)) as [->|(cw & Hin & ->)]; [done|].
    by apply (proj1 (Forall_forall _ _) Hcws cw Hin). }
  split; [exact Hnz|]. intros e value He Hprop.
  pose proof (GenerateEndpoints_loadbalanced _ _ _ _ _ _ Hs Hgen) as ->.
  apply (proj1 (elem_of_Slice_lessSetID _ _)) in He.
  assert (value = Go.Itoa (getWeight routing (Some objectLabels))) as ->.
  { apply elem_of_chain in He as [[_ ->]|[(target & _ & ->)|[->|[[_ ->]| ->]]]].
    - discriminate.
    - by injection Hprop as <-.
    - by rewrite geoRecord_no_weight in Hprop.
    - discriminate.
    - discriminate. }
  split; [done|]. intros Hzero. apply Hnz. by apply Itoa_inj.
Qed.

Lemma loadbalanced_weight_nonzero_witness :
  Strategy (lbRouting (Some twoIPs) [weightFOO]) = LoadBalancedRoutingStrategy
  ∧ ∃ endpoints,
      GenerateEndpoints (H := testShortCoder)
        [("127.0.0.1", IPAddressType); ("127.0.0.2", IPAddressType)] TestNamespacedName
        (Some labelsFOO) "test.example.com" (lbRouting (Some twoIPs) [weightFOO])
        = Ok endpoints
      ∧ getWeight (lbRouting (Some twoIPs) [weightFOO]) (Some labelsFOO) ≠ 0.
Proof.
  split; [reflexivity|].
  destruct (GenerateEndpoints (H := testShortCoder)
        [("127.0.0.1", IPAddressType); ("127.0.0.2", IPAddressType)] TestNamespacedName
        (Some labelsFOO) "test.example.com" (lbRouting (Some twoIPs) [weightFOO]))
    as [endpoints|msg] eqn:Hgen; [|vm_compute in Hgen; discriminate Hgen].
  exists endpoints. split; [reflexivity|].
  exact (proj1 (loadbalanced_weight_nonzero (H := testShortCoder)
        [("127.0.0.1", IPAddressType); ("127.0.0.2", IPAddressType)] TestNamespacedName
        labelsFOO "test.example.com" (lbRouting (Some twoIPs) [weightFOO]) endpoints
        eq_refl Hgen)).
Defined.

(** ** The shape of a load-balanced result *)

Lemma geo_top_in_chain `{ShortCoder} namespacedName objectLabels routing hostname ips hosts :
  ips ≠ [] ∨ hosts ≠ [] →
  geoRecord (lbNameOf hostname)
    (geoLbNameOf (getGeoFromLabel objectLabels) (lbNameOf hostname))
    (getGeoFromLabel objectLabels)
    ∈ chain namespacedName objectLabels routing hostname ips hosts
  ∧ topRecord hostname (lbNameOf hostname)
    ∈ chain namespacedName objectLabels routing hostname ips hosts.
Proof.
  intros Hne. unfold chain.
  destruct ips, hosts; [by destruct Hne|..];
    (split;
     [ apply elem_of_app; right; apply elem_of_app; right; apply list_elem_of_here
     | do 4 (apply elem_of_app; right); apply list_elem_of_here ]).
Qed.

(** X4: in the result of a load-balanced generation every address of the
    routing is reached from the hostname by following targets: the hostname
    leads to the load-balancer name, that to the geo name, that to every
    hostname-typed address and to the cluster name, and the cluster name to
    every IP-typed address. *)
Theorem loadbalanced_addresses_reachable `{ShortCoder} (addresses : mapRange) namespacedName
    (objectLabels : gmap string string) hostname routing endpoints :
  Strategy routing = LoadBalancedRoutingStrategy →
  rangesOver (Addresses routing) addresses →
  GenerateEndpoints addresses namespacedName (Some objectLabels) hostname routing
    = Ok endpoints →
  ∀ address kind,
    default ∅ (Addresses routing) !! address = Some kind →
    reaches endpoints hostname address.
Proof.
  intros Hs Hr Hgen address kind Hlook.
  pose proof (GenerateEndpoints_loadbalanced _ _ _ _ _ _ Hs Hgen) as ->.
  assert ((address, kind) ∈ addresses) as Hin.
  { unfold rangesOver in Hr. rewrite Hr. by apply elem_of_map_to_list. }
  set (ips := (targetsFromAddresses addresses).1).
  set (hosts := (targetsFromAddresses addresses).2).
  assert (ips = (filter (λ kv, kv.2 = IPAddressType) addresses).*1
          ∧ hosts = (filter (λ kv, kv.2 ≠ IPAddressType) addresses).*1) as [Hips Hhosts].
  { subst ips hosts. by rewrite targetsFromAddresses_filter. }
  assert (address ∈ ips ∨ address ∈ hosts) as Hwhere.
  { destruct (decide (kind = IPAddressType)) as [Hk|Hk]; [left|right];
      rewrite ?Hips, ?Hhosts; apply list_elem_of_fmap; exists (address, kind);
      (split; [done|]); by apply list_elem_of_filter. }
  assert (ips ≠ [] ∨ hosts ≠ []) as Hne.
  { destruct Hwhere as [Hw|Hw]; [left|right]; intros Hnil; rewrite Hnil in Hw;
      by apply elem_of_nil in Hw. }
  destruct (geo_top_in_chain namespacedName (Some objectLabels) routing hostname ips hosts Hne)
    as [Hgeo Htop].
  apply (proj2 (elem_of_Slice_lessSetID _ _)) in Hgeo, Htop.
  apply (reaches_step _ _ _ _ Htop (list_elem_of_here _ _)).
  apply (reaches_step _ _ _ _ Hgeo (list_elem_of_here _ _)).
  destruct Hwhere as [Hip|Hhost].
  - assert (ips ≠ []) as Hipne by (intros Hnil; rewrite Hnil in Hip; by apply elem_of_nil in Hip).
    destruct (cluster_in_chain namespacedName (Some objectLabels) routing hostname ips hosts
                Hipne) as [Hcluster Hweighted].
    apply (proj2 (elem_of_Slice_lessSetID _ _)) in Hcluster, Hweighted.
    apply (reaches_step _ _ _ _ Hweighted (list_elem_of_here _ _)).
    exact (reaches_target _ _ _ Hcluster Hip).
  - pose proof (weighted_in_chain namespacedName (Some objectLabels) routing hostname ips hosts
                  address Hhost) as Hweighted.
    apply (proj2 (elem_of_Slice_lessSetID _ _)) in Hweighted.
    exact (reaches_target _ _ _ Hweighted (list_elem_of_here _ _)).
Qed.

Lemma loadbalanced_addresses_reachable_witness :
  Strategy (lbRouting (Some twoIPs) []) = LoadBalancedRoutingStrategy
  ∧ rangesOver (Addresses (lbRouting (Some twoIPs) []))
      [("127.0.0.1", IPAddressType); ("127.0.0.2", IPAddressType)]
  ∧ default ∅ (Addresses (lbRouting (Some twoIPs) [])) !! "127.0.0.2" = Some IPAddressType
  ∧ ∃ endpoints,
      GenerateEndpoints (H := testShortCoder)
        [("127.0.0.1", IPAddressType); ("127.0.0.2", IPAddressType)] TestNamespacedName
        (Some (geoLabels "IE")) "test.example.com" (lbRouting (Some twoIPs) []) = Ok endpoints
      ∧ reaches endpoints "test.example.com" "127.0.0.2".
Proof.
  assert (rangesOver (Addresses (lbRouting (Some twoIPs) []))
      [("127.0.0.1", IPAddressType); ("127.0.0.2", IPAddressType)]) as Hr.
  { unfold rangesOver. vm_compute. reflexivity. }
  assert (default ∅ (Addresses (lbRouting (Some twoIPs) [])) !! "127.0.0.2"
          = Some IPAddressType) as Hlook by (vm_compute; reflexivity).
  split; [reflexivity|]. split; [exact Hr|]. split; [exact Hlook|].
  destruct (GenerateEndpoints (H := testShortCoder)
        [("127.0.0.1", IPAddressType); ("127.0.0.2", IPAddressType)] TestNamespacedName
        (Some (geoLabels "IE")) "test.example.com" (lbRouting (Some twoIPs) []))
    as [endpoints|msg] eqn:Hgen; [|vm_compute in Hgen; discriminate Hgen].
  exists endpoints. split; [reflexivity|].
  exact (loadbalanced_addresses_reachable (H := testShortCoder)
        [("127.0.0.1", IPAddressType); ("127.0.0.2", IPAddressType)] TestNamespacedName
        (geoLabels "IE") "test.example.com" (lbRouting (Some twoIPs) []) endpoints
        eq_refl Hr Hgen "127.0.0.2" IPAddressType Hlook).
Defined.

(** X6: the records of the two upper tiers of a load-balanced result, the
    ones with TTL 300 at the hostname and at the load-balancer name, never
    point to their own name. *)
Theorem loadbalanced_no_self_reference `{ShortCoder} (addresses : mapRange) namespacedName
    (objectLabels : gmap string string) hostname routing endpoints :
  Strategy routing = LoadBalancedRoutingStrategy →
  GenerateEndpoints addresses namespacedName (Some objectLabels) hostname routing
    = Ok endpoints →
  ∀ e, e ∈ endpoints → RecordTTL e = 300 → DNSName e ∉ Targets e.
Proof.
  intros Hs Hgen e He Httl.
  pose proof (GenerateEndpoints_loadbalanced _ _ _ _ _ _ Hs Hgen) as ->.
  apply (proj1 (elem_of_Slice_lessSetID _ _)) in He.
  apply elem_of_chain in He as [[_ ->]|[(target & _ & ->)|[->|[[_ ->]| ->]]]];
    [discriminate | discriminate | ..]; simpl; intros Hin;
    apply list_elem_of_singleton in Hin.
  - by apply (geoLbNameOf_ne_lbName (getGeoFromLabel (Some objectLabels)) (lbNameOf hostname)).
  - by apply (geoLbNameOf_ne_lbName (getGeoFromLabel (Some objectLabels)) (lbNameOf hostname)).
  - by apply (lbNameOf_ne_hostname hostname).
Qed.

Lemma loadbalanced_no_self_reference_witness :
  Strategy (lbRouting (Some oneHost) []) = LoadBalancedRoutingStrategy
  ∧ ∃ endpoints,
      GenerateEndpoints (H := testShortCoder) [("pat.the.cat", "Hostname")]
        TestNamespacedName (Some (geoLabels "IE")) "*.example.com"
        (lbRouting (Some oneHost) []) = Ok endpoints
      ∧ ∀ e, e ∈ endpoints → RecordTTL e = 300 → DNSName e ∉ Targets e.
Proof.
  split; [reflexivity|].
  destruct (GenerateEndpoints (H := testShortCoder) [("pat.the.cat", "Hostname")]
        TestNamespacedName (Some (geoLabels "IE")) "*.example.com"
        (lbRouting (Some oneHost) []))
    as [endpoints|msg] eqn:Hgen; [|vm_compute in Hgen; discriminate Hgen].
  exists endpoints. split; [reflexivity|].
  exact (loadbalanced_no_self_reference (H := testShortCoder) [("pat.the.cat", "Hostname")]
        TestNamespacedName (geoLabels "IE") "*.example.com" (lbRouting (Some oneHost) [])
        endpoints eq_refl Hgen).
Defined.

(** ** Records of a result *)

Lemma elem_of_getSimpleEndpoints (addresses : mapRange) hostname e :
  e ∈ getSimpleEndpoints addresses hostname →
  Targets e ≠ []
  ∧ (e = createEndpoint hostname (targetsFromAddresses addresses).1 ARecordType "" DefaultTTL
     ∨ e = createEndpoint hostname (targetsFromAddresses addresses).2 CNAMERecordType ""
             DefaultTTL).
Proof.
  unfold getSimpleEndpoints. destruct (targetsFromAddresses addresses) as [ips hosts].
  cbn [fst snd]. intros He. apply elem_of_app in He as [He|He].
  - destruct ips; [by apply elem_of_nil in He|].
    apply list_elem_of_singleton in He as ->. split; [done | by left].
  - destruct hosts; [by apply elem_of_nil in He|].
    apply list_elem_of_singleton in He as ->. split; [done | by right].
Qed.

(** X7: every record [GenerateEndpoints] returns has at least one target
    and is either an A record with TTL 60, no set identifier and no
    provider-specific property, or a CNAME record with TTL 60 or 300; a
    CNAME record of the load-balanced strategy has exactly one target. *)
Theorem records_well_formed `{ShortCoder} (addresses : mapRange) namespacedName
    objectLabels hostname routing endpoints :
  GenerateEndpoints addresses namespacedName objectLabels hostname routing = Ok endpoints →
  ∀ e, e ∈ endpoints →
    Targets e ≠ []
    ∧ (RecordType e = "A" ∧ RecordTTL e = 60 ∧ SetIdentifier e = ""
       ∧ ProviderSpecific e = []
       ∨ RecordType e = "CNAME" ∧ (RecordTTL e = 60 ∨ RecordTTL e = 300)
         ∧ (Strategy routing = LoadBalancedRoutingStrategy → length (Targets e) = 1%nat)).
Proof.
  unfold GenerateEndpoints. intros Hgen e He.
  destruct (String.eqb hostname ""); [discriminate|].
  destruct (Validate routing); [discriminate|].
  destruct (String.eqb_spec (Strategy routing) SimpleRoutingStrategy) as [Hs|Hs].
  { injection Hgen as <-. apply (proj1 (elem_of_Slice_lessSetID _ _)) in He.
    apply elem_of_getSimpleEndpoints in He as [Hne [->| ->]]; (split; [done|]).
    - left. done.
    - right. split; [done|]. split; [by left|]. rewrite Hs. discriminate. }
  destruct (String.eqb (Strategy routing) LoadBalancedRoutingStrategy); [|discriminate].
  destruct objectLabels as [objectLabels|]; [|discriminate].
  injection Hgen as <-. apply (proj1 (elem_of_Slice_lessSetID _ _)) in He.
  rewrite getLoadBalancedEndpoints_chain in He.
  apply elem_of_chain in He as [[Hne ->]|[(target & _ & ->)|[->|[[_ ->]| ->]]]].
  - split; [done|]. by left.
  - split; [done|]. right. split; [done|]. split; [by left | done].
  - split; [done|]. right. split; [done|]. split; [by right | done].
  - split; [done|]. right. split; [done|]. split; [by right | done].
  - split; [done|]. right. split; [done|]. split; [by right | done].
Qed.

Lemma records_well_formed_witness :
  ∃ endpoints,
    GenerateEndpoints (H := testShortCoder)
      [("127.0.0.1", IPAddressType); ("127.0.0.2", IPAddressType)] TestNamespacedName
      (Some (geoLabels "IE")) "test.example.com" (lbRouting (Some twoIPs) []) = Ok endpoints
    ∧ ∀ e, e ∈ endpoints → Targets e ≠ [].
Proof.
  destruct (GenerateEndpoints (H := testShortCoder)
        [("127.0.0.1", IPAddressType); ("127.0.0.2", IPAddressType)] TestNamespacedName
        (Some (geoLabels "IE")) "test.example.com" (lbRouting (Some twoIPs) []))
    as [endpoints|msg] eqn:Hgen; [|vm_compute in Hgen; discriminate Hgen].
  exists endpoints. split; [reflexivity|].
  exact (λ e He, proj1 (records_well_formed (H := testShortCoder)
        [("127.0.0.1", IPAddressType); ("127.0.0.2", IPAddressType)] TestNamespacedName
        (Some (geoLabels "IE")) "test.example.com" (lbRouting (Some twoIPs) []) endpoints
        Hgen e He)).
Defined.

Lemma chain_length `{ShortCoder} namespacedName objectLabels routing hostname ips hosts :
  ips ≠ [] ∨ hosts ≠ [] →
  length (chain namespacedName objectLabels routing hostname ips hosts)
  = (length hosts + match ips with [] => 0 | _ => 2 end + 2
     + if String.eqb (getGeoFromLabel objectLabels) (DefaultGeoCode routing) then 1 else 0)%nat.
Proof.
  intros Hne. unfold chain.
  destruct ips, hosts; [by destruct Hne|..];
    destruct (String.eqb (getGeoFromLabel objectLabels) (DefaultGeoCode routing));
    rewrite ?length_app, ?length_fmap, ?length_app; simpl; lia.
Qed.

(** X8: over a non-empty address map a load-balanced generation returns
    one record for each hostname-typed address, two more when there is an
    IP-typed address (the A record of the cluster and the CNAME to it), the
    CNAME at the load-balancer name and the CNAME at the hostname, and one
    more when the geo code of the object is the default geo code of the
    routing. *)
Theorem loadbalanced_record_count `{ShortCoder} (addresses : mapRange) namespacedName
    (objectLabels : gmap string string) hostname routing endpoints :
  Strategy routing = LoadBalancedRoutingStrategy →
  rangesOver (Addresses routing) addresses →
  default ∅ (Addresses routing) ≠ ∅ →
  GenerateEndpoints addresses namespacedName (Some objectLabels) hostname routing
    = Ok endpoints →
  length endpoints
  = (length (hostAddresses (Addresses routing))
     + match ipAddresses (Addresses routing) with [] => 0 | _ => 2 end
     + 2
     + if String.eqb (getGeoFromLabel (Some objectLabels)) (DefaultGeoCode routing)
       then 1 else 0)%nat.
Proof.
  intros Hs Hr Hm Hgen.
  pose proof (GenerateEndpoints_loadbalanced _ _ _ _ _ _ Hs Hgen) as ->.
  rewrite (Permutation_length (Slice_perm lessSetID _)).
  rewrite chain_length by (by eapply rangesOver_nonempty).
  destruct (targetsFromAddresses_perm _ _ Hr) as [Hips Hhosts].
  rewrite (Permutation_length Hhosts).
  destruct ((targetsFromAddresses addresses).1) as [|ip ips] eqn:E1,
           (ipAddresses (Addresses routing)) as [|ip' ips'] eqn:E2;
    [done | by apply Permutation_nil_cons in Hips
     | symmetry in Hips; by apply Permutation_nil_cons in Hips | done].
Qed.

Lemma loadbalanced_record_count_witness :
  Strategy (lbRouting (Some twoIPs) []) = LoadBalancedRoutingStrategy
  ∧ rangesOver (Addresses (lbRouting (Some twoIPs) []))
      [("127.0.0.1", IPAddressType); ("127.0.0.2", IPAddressType)]
  ∧ default ∅ (Addresses (lbRouting (Some twoIPs) [])) ≠ ∅
  ∧ ∃ endpoints,
      GenerateEndpoints (H := testShortCoder)
        [("127.0.0.1", IPAddressType); ("127.0.0.2", IPAddressType)] TestNamespacedName
        (Some (geoLabels "IE")) "test.example.com" (lbRouting (Some twoIPs) []) = Ok endpoints
      ∧ length endpoints = 5%nat.
Proof.
  assert (rangesOver (Addresses (lbRouting (Some twoIPs) []))
      [("127.0.0.1", IPAddressType); ("127.0.0.2", IPAddressType)]) as Hr.
  { unfold rangesOver. vm_compute. reflexivity. }
  assert (default ∅ (Addresses (lbRouting (Some twoIPs) [])) ≠ ∅) as Hm
    by apply insert_non_empty.
  split; [reflexivity|]. split; [exact Hr|]. split; [exact Hm|].
  destruct (GenerateEndpoints (H := testShortCoder)
        [("127.0.0.1", IPAddressType); ("127.0.0.2", IPAddressType)] TestNamespacedName
        (Some (geoLabels "IE")) "test.example.com" (lbRouting (Some twoIPs) []))
    as [endpoints|msg] eqn:Hgen; [|vm_compute in Hgen; discriminate Hgen].
  exists endpoints. split; [reflexivity|].
  rewrite (loadbalanced_record_count (H := testShortCoder)
        [("127.0.0.1", IPAddressType); ("127.0.0.2", IPAddressType)] TestNamespacedName
        (geoLabels "IE") "test.example.com" (lbRouting (Some twoIPs) []) endpoints
        eq_refl Hr Hm Hgen).
  vm_compute. reflexivity.
Defined.

(** X9: under the Simple strategy the result depends on the addresses and
    the hostname alone: the namespaced name, the object labels and every
    other field of the routing are ignored. *)
Theorem simple_ignores_load_balancing `{ShortCoder} (addresses : mapRange) namespacedName
    namespacedName' objectLabels objectLabels' hostname routing routing' :
  Strategy routing = SimpleRoutingStrategy → Strategy routing' = SimpleRoutingStrategy →
  GenerateEndpoints addresses namespacedName objectLabels hostname routing
  = GenerateEndpoints addresses namespacedName' objectLabels' hostname routing'.
Proof.
  intros Hs Hs'. unfold GenerateEndpoints, Validate. by rewrite Hs, Hs'.
Qed.

Lemma simple_ignores_load_balancing_witness :
  Strategy (simpleRouting (Some twoIPs)) = SimpleRoutingStrategy
  ∧ Strategy (RoutingBuilder.WithAddresses (Some twoIPs) RoutingBuilder.New)
    = SimpleRoutingStrategy
  ∧ GenerateEndpoints (H := testShortCoder)
      [("127.0.0.1", IPAddressType); ("127.0.0.2", IPAddressType)] TestNamespacedName
      None "test.example.com" (simpleRouting (Some twoIPs))
    = GenerateEndpoints (H := testShortCoder)
        [("127.0.0.1", IPAddressType); ("127.0.0.2", IPAddressType)]
        {| Namespace := "other"; Name := "name" |} (Some labelsFOO) "test.example.com"
        (RoutingBuilder.WithAddresses (Some twoIPs) RoutingBuilder.New).
Proof.
  exact (conj eq_refl (conj eq_refl
    (simple_ignores_load_balancing (H := testShortCoder)
       [("127.0.0.1", IPAddressType); ("127.0.0.2", IPAddressType)] TestNamespacedName
       {| Namespace := "other"; Name := "name" |} None (Some labelsFOO) "test.example.com"
       (simpleRouting (Some twoIPs))
       (RoutingBuilder.WithAddresses (Some twoIPs) RoutingBuilder.New) eq_refl eq_refl))).
Defined.

(** ** The routing builder *)

(** X10: the calls of the routing builder can be chained in any order:
    [WithAddresses] does not override the strategy [WithLoadBalancing] has
    set, whichever comes first, and [WithCustomWeights] commutes with both;
    on a new builder [WithAddresses] alone selects the Simple strategy. *)
Theorem routing_builder_order (rb : Routing) addresses clusterID defaultGeo defaultWeight
    weights :
  RoutingBuilder.WithAddresses addresses
    (RoutingBuilder.WithLoadBalancing clusterID defaultGeo defaultWeight rb)
  = RoutingBuilder.WithLoadBalancing clusterID defaultGeo defaultWeight
      (RoutingBuilder.WithAddresses addresses rb)
  ∧ RoutingBuilder.WithCustomWeights weights (RoutingBuilder.WithAddresses addresses rb)
    = RoutingBuilder.WithAddresses addresses (RoutingBuilder.WithCustomWeights weights rb)
  ∧ RoutingBuilder.WithCustomWeights weights
      (RoutingBuilder.WithLoadBalancing clusterID defaultGeo defaultWeight rb)
    = RoutingBuilder.WithLoadBalancing clusterID defaultGeo defaultWeight
        (RoutingBuilder.WithCustomWeights weights rb)
  ∧ Strategy (RoutingBuilder.WithAddresses addresses RoutingBuilder.New)
    = SimpleRoutingStrategy
  ∧ Strategy (RoutingBuilder.WithAddresses addresses
                (RoutingBuilder.WithLoadBalancing clusterID defaultGeo defaultWeight rb))
    = LoadBalancedRoutingStrategy.
Proof. repeat split. Qed.


Lemma GenerateEndpoints_succeeds_iff_helper `{ShortCoder} (addresses : mapRange)
    namespacedName (objectLabels : gmap string string) hostname routing :
  Strategy routing = LoadBalancedRoutingStrategy → Validate routing = None → hostname ≠ "" →
  ∃ endpoints,
    GenerateEndpoints addresses namespacedName (Some objectLabels) hostname routing
    = Ok endpoints.
Proof.
  intros Hs Hv Hh. unfold GenerateEndpoints.
  apply String.eqb_neq in Hh. rewrite Hh, Hv, Hs. simpl. eauto.
Qed.

(** X11: [Build] after [WithAddresses] alone never reports an error, even
    for nil addresses.  [Build] after [WithAddresses] with a non-nil map,
    [WithLoadBalancing] and [WithCustomWeights] reports no error exactly when
    the cluster ID and the default geo code are not empty, the default weight
    is not 0 and every custom weight has a weight other than 0 and match
    labels or match expressions set; the routing it then returns makes
    [GenerateEndpoints] succeed for every non-empty hostname and non-nil
    object labels. *)
Theorem built_routing_generates `{ShortCoder} (order : mapRange) namespacedName
    (objectLabels : gmap string string) hostname (addresses : gmap string string) anyAddresses
    clusterID defaultGeo defaultWeight weights :
  let built :=
    RoutingBuilder.Build
      (RoutingBuilder.WithCustomWeights weights
         (RoutingBuilder.WithLoadBalancing clusterID defaultGeo defaultWeight
            (RoutingBuilder.WithAddresses (Some addresses) RoutingBuilder.New))) in
  (RoutingBuilder.Build (RoutingBuilder.WithAddresses anyAddresses RoutingBuilder.New)).2
    = None
  ∧ (built.2 = None
     ↔ clusterID ≠ "" ∧ defaultWeight ≠ 0 ∧ defaultGeo ≠ "" ∧ Forall acceptable weights)
  ∧ (built.2 = None → hostname ≠ "" →
     ∃ endpoints,
       GenerateEndpoints order namespacedName (Some objectLabels) hostname built.1
       = Ok endpoints).
Proof.
  cbn zeta.
  set (routing := RoutingBuilder.WithCustomWeights weights
         (RoutingBuilder.WithLoadBalancing clusterID defaultGeo defaultWeight
            (RoutingBuilder.WithAddresses (Some addresses) RoutingBuilder.New))).
  assert (Strategy routing = LoadBalancedRoutingStrategy) as Hs by done.
  split; [done|]. split.
  - unfold RoutingBuilder.Build. cbn [snd]. split.
    + intros Hv. destruct (Validate_loadbalanced _ Hs Hv) as [(_ & _ & Hc & Hw & Hg) Hcws].
      done.
    + intros (Hc & Hw & Hg & Hcws). apply ValidateSpec_sound, valid_other; [done| |done].
      repeat split; done.
  - unfold RoutingBuilder.Build. cbn [fst snd]. intros Hv Hh.
    by apply GenerateEndpoints_succeeds_iff_helper.
Qed.

Lemma built_routing_generates_witness :
  "test.example.com" ≠ ""
  ∧ (RoutingBuilder.Build
       (RoutingBuilder.WithCustomWeights [weightFOO]
          (RoutingBuilder.WithLoadBalancing "fbf71c44-6b37-4962-ace6-801912e769be" "IE" 120
             (RoutingBuilder.WithAddresses (Some twoIPs) RoutingBuilder.New)))).2 = None
  ∧ ∃ endpoints,
      GenerateEndpoints (H := testShortCoder)
        [("127.0.0.1", IPAddressType); ("127.0.0.2", IPAddressType)] TestNamespacedName
        (Some labelsFOO) "test.example.com"
        (RoutingBuilder.Build
           (RoutingBuilder.WithCustomWeights [weightFOO]
              (RoutingBuilder.WithLoadBalancing "fbf71c44-6b37-4962-ace6-801912e769be" "IE" 120
                 (RoutingBuilder.WithAddresses (Some twoIPs) RoutingBuilder.New)))).1
      = Ok endpoints.
Proof.
  assert ("test.example.com" ≠ "") as Hh by discriminate.
  pose proof (built_routing_generates (H := testShortCoder)
      [("127.0.0.1", IPAddressType); ("127.0.0.2", IPAddressType)] TestNamespacedName
      labelsFOO "test.example.com" twoIPs None "fbf71c44-6b37-4962-ace6-801912e769be" "IE"
      120 [weightFOO]) as T.
  cbn zeta in T. destruct T as (_ & _ & Hgen).
  exact (conj Hh (conj eq_refl (Hgen eq_refl Hh))).
Defined.

(** ** Package builder *)

Lemma builder_apply_endpoints {LB : Type} (calls : list (builder.call LB))
    (blder : builder.EndpointsBuilder LB) :
  builder.endpoints (fold_left builder.apply calls blder)
  = builder.endpoints blder ++ builder.added calls.
Proof.
  revert blder. induction calls as [|c calls IH]; intros blder.
  - by rewrite app_nil_r.
  - cbn [fold_left]. rewrite IH. unfold builder.added. destruct c; cbn.
    + done.
    + done.
    + done.
    + by rewrite <- app_assoc.
Qed.

Lemma builder_Build_endpoints {LB : Type} (blder : builder.EndpointsBuilder LB) :
  (builder.Build blder).2 = builder.endpoints blder
  ∧ builder.endpoints (builder.Build blder).1 = builder.endpoints blder.
Proof.
  unfold builder.Build, builder.getSimpleEndpoints, builder.getLoadBalancedEndpoints.
  cbn [fst snd builder.endpoints].
  destruct (builder.target blder); [|done].
  destruct (builder.loadBalancing blder); by rewrite app_nil_r.
Qed.

(** X12: whatever calls are chained on a new endpoints builder, [Build]
    returns exactly the endpoints handed to [WithEndpoint], in the order of
    the calls; a target, a routing strategy or a load-balancing
    specification adds no endpoint; and building a second time returns the
    same endpoints. *)
Theorem endpoints_builder_returns_added {LB : Type} (calls : list (builder.call LB)) :
  (builder.Build (builder.chained calls)).2 = builder.added calls
  ∧ (builder.Build (builder.Build (builder.chained calls)).1).2 = builder.added calls.
Proof.
  destruct (builder_Build_endpoints (builder.chained calls)) as [H1 H2].
  destruct (builder_Build_endpoints (builder.Build (builder.chained calls)).1) as [H3 _].
  assert (builder.endpoints (builder.chained calls) = builder.added calls) as Hadded.
  { unfold builder.chained. by rewrite builder_apply_endpoints. }
  split; [by rewrite H1 | by rewrite H3, H2].
Qed.

Lemma record_builder_without_target {LB PR : Type}
    (calls : list (builder.recordCall PR)) (state : option (builder.DNSRecordBuilder LB PR)) :
  forallb (λ c, negb (builder.isForTarget c)) calls = true →
  (∀ b, state = Some b → builder.endpointBuilder b = None) →
  fold_left builder.recordApply calls state ≫= builder.RecordBuild = None.
Proof.
  revert state. induction calls as [|c calls IH]; intros state Hcalls Hstate.
  - destruct state as [b|]; [|done]. cbn. unfold builder.RecordBuild.
    by rewrite (Hstate b eq_refl).
  - cbn in Hcalls. apply andb_prop in Hcalls as [Hc Hcalls]. cbn [fold_left].
    apply IH; [done|]. intros b' Hb'. destruct state as [b|]; [|done].
    specialize (Hstate b eq_refl). destruct c; cbn in Hb', Hc; try discriminate Hc.
    + unfold builder.RecordForRoutingStrategy in Hb'. by rewrite Hstate in Hb'.
    + by injection Hb' as <-.
    + by injection Hb' as <-.
    + by injection Hb' as <-.
    + by injection Hb' as <-.
    + by injection Hb' as <-.
Qed.

Lemma record_builder_panicked {LB PR : Type} (calls : list (builder.recordCall PR)) :
  fold_left (builder.recordApply (LoadBalancingSpec := LB)) calls None = None.
Proof. induction calls as [|c calls IH]; [done | exact IH]. Qed.

(** A [ForTarget] whose target panics on [GetNamespace] makes the chain
    panic, whatever came before. *)
Lemma record_builder_bad_target {LB PR : Type}
    (calls : list (builder.recordCall PR)) (state : option (builder.DNSRecordBuilder LB PR)) :
  forallb builder.targetAnswers calls = false →
  fold_left builder.recordApply calls state = None.
Proof.
  revert state. induction calls as [|c calls IH]; intros state Hcalls; [done|].
  cbn [fold_left]. cbn in Hcalls. apply andb_false_iff in Hcalls as [Hc|Hcalls].
  - destruct state as [b|]; [|apply record_builder_panicked].
    destruct c; cbn in Hc; try discriminate Hc.
    apply bool_decide_eq_false_1 in Hc. cbn. unfold builder.RecordForTarget.
    destruct (builder.callGetNamespace t); [by destruct Hc|].
    apply record_builder_panicked.
  - by apply IH.
Qed.

Lemma record_builder_with_target {LB PR : Type}
    (calls : list (builder.recordCall PR)) (b : builder.DNSRecordBuilder LB PR) eb :
  forallb builder.targetAnswers calls = true →
  builder.endpointBuilder b = Some eb → builder.endpoints eb = [] →
  ∃ record, fold_left builder.recordApply calls (Some b) ≫= builder.RecordBuild = Some record
            ∧ builder.Endpoints record = [].
Proof.
  revert b eb. induction calls as [|c calls IH]; intros b eb Hcalls Heb Hnil.
  - change (fold_left builder.recordApply [] (Some b) ≫= builder.RecordBuild)
      with (builder.RecordBuild b).
    unfold builder.RecordBuild. rewrite Heb. eexists. split; [reflexivity|].
    cbn [builder.Endpoints]. by rewrite (proj1 (builder_Build_endpoints eb)).
  - cbn in Hcalls. apply andb_prop in Hcalls as [Hc Hcalls].
    cbn [fold_left]. destruct c; cbn.
    + cbn in Hc. apply bool_decide_eq_true_1 in Hc as [ns Hns].
      unfold builder.RecordForTarget. rewrite Hns.
      eapply IH; [done | done |]. cbn. by rewrite Heb.
    + unfold builder.RecordForRoutingStrategy. rewrite Heb. eapply IH; done.
    + eapply IH; done.
    + eapply IH; done.
    + eapply IH; done.
    + eapply IH; done.
    + eapply IH; done.
Qed.

(** X13: a chain of calls on a new DNS record builder that contains no
    [ForTarget] ends in a panic, at the latest in [Build], because the
    endpoints builder is still nil; a chain that calls [ForTarget] with a
    nil target, or with a target whose [GetNamespace] panics, panics; a chain
    that starts with [ForTarget] and whose [ForTarget] calls are all given
    targets that answer [GetNamespace] does not panic, and [Build] then
    returns a record without endpoints; [ForTarget] replaces the namespace
    given to [NewDNSRecordBuilder] by the namespace the target answers. *)
Theorem record_builder_build {LB PR : Type} (zeroRef : PR) (name namespace : string) :
  (∀ calls : list (builder.recordCall PR),
     forallb (λ c, negb (builder.isForTarget c)) calls = true →
     builder.recordChained (LoadBalancingSpec := LB) zeroRef name namespace calls
       ≫= builder.RecordBuild = None)
  ∧ (∀ calls : list (builder.recordCall PR),
       forallb builder.targetAnswers calls = false →
       builder.recordChained (LoadBalancingSpec := LB) zeroRef name namespace calls = None)
  ∧ (∀ t (rest : list (builder.recordCall PR)),
       forallb builder.targetAnswers (builder.RForTarget t :: rest) = true →
       ∃ record,
         builder.recordChained (LoadBalancingSpec := LB) zeroRef name namespace
           (builder.RForTarget t :: rest) ≫= builder.RecordBuild = Some record
         ∧ builder.Endpoints record = [])
  ∧ (∀ t ns,
       builder.callGetNamespace t = Some ns →
       builder.RecordNamespace
       <$> (builder.recordChained (LoadBalancingSpec := LB) zeroRef name namespace
              [builder.RForTarget t] ≫= builder.RecordBuild)
       = Some ns).
Proof.
  split; [|split; [|split]].
  - intros calls Hcalls. apply record_builder_without_target; [done|].
    by intros b [= <-].
  - intros calls Hcalls. by apply record_builder_bad_target.
  - intros t rest Hcalls. cbn in Hcalls. apply andb_prop in Hcalls as [Ht Hrest].
    apply bool_decide_eq_true_1 in Ht as [ns Hns].
    unfold builder.recordChained. cbn [fold_left builder.recordApply].
    unfold builder.RecordForTarget. rewrite Hns.
    eapply record_builder_with_target; done.
  - intros t ns Hns. unfold builder.recordChained.
    cbn [fold_left builder.recordApply]. unfold builder.RecordForTarget. by rewrite Hns.
Qed.

Lemma record_builder_build_witness :
  forallb (λ c, negb (builder.isForTarget c))
    [builder.RWithName (ProviderRef := string) "record"; builder.RWithRootHost "foo.example.com"]
    = true
  ∧ forallb (builder.targetAnswers (ProviderRef := string))
      [builder.RWithName "record"; builder.RForTarget builder.NilTarget] = false
  ∧ forallb (builder.targetAnswers (ProviderRef := string))
      [builder.RForTarget gatewayTarget; builder.RForRoutingStrategy "simple";
       builder.RWithRootHost "foo.example.com"] = true
  ∧ builder.callGetNamespace gatewayTarget = Some "testgw"
  ∧ builder.recordChained (LoadBalancingSpec := unit) "" "record" "default"
      [builder.RWithName "record"; builder.RWithRootHost "foo.example.com"]
      ≫= builder.RecordBuild = None
  ∧ builder.recordChained (LoadBalancingSpec := unit) "" "record" "default"
      [builder.RWithName "record"; builder.RForTarget builder.NilTarget] = None
  ∧ (∃ record,
       builder.recordChained (LoadBalancingSpec := unit) "" "record" "default"
         [builder.RForTarget gatewayTarget; builder.RForRoutingStrategy "simple";
          builder.RWithRootHost "foo.example.com"] ≫= builder.RecordBuild = Some record
       ∧ builder.Endpoints record = [])
  ∧ builder.RecordNamespace
    <$> (builder.recordChained (LoadBalancingSpec := unit) "" "record" "default"
           [builder.RForTarget gatewayTarget] ≫= builder.RecordBuild)
    = Some "testgw".
Proof.
  pose proof (record_builder_build (LB := unit) "" "record" "default")
    as (Hnone & Hbad & Hgood & Hns).
  exact (conj eq_refl (conj eq_refl (conj eq_refl (conj eq_refl
    (conj (Hnone [builder.RWithName "record"; builder.RWithRootHost "foo.example.com"]
             eq_refl)
    (conj (Hbad [builder.RWithName "record"; builder.RForTarget builder.NilTarget] eq_refl)
    (conj (Hgood gatewayTarget
             [builder.RForRoutingStrategy "simple"; builder.RWithRootHost "foo.example.com"]
             eq_refl)
          (Hns gatewayTarget "testgw" eq_refl)))))))).
Defined.

(** ** Hostnames that are left as they are *)

(** X14: only a hostname that starts with ["*"] and contains ["*."] is
    altered before the load-balancer name is formed: for a hostname that
    does not start with ["*"], even when ["*."] occurs inside it, and for a
    hostname in which ["*."] does not occur, even when it starts with ["*"],
    the load-balancer name is ["klb."] followed by the whole hostname,
    lower-cased. *)
Theorem hostname_kept (hostname : string) :
  isWildCardHost hostname = false ∨ occursIn "*." hostname = false →
  lbNameOf hostname = Go.ToLower ("klb." +:+ hostname).
Proof.
  unfold lbNameOf, cnameHostOf. intros [->|Hocc]; [done|].
  destruct (isWildCardHost hostname); [|done].
  unfold Go.ReplaceAll. by rewrite replaceFrom_absent.
Qed.

Lemma hostname_kept_witness :
  (isWildCardHost "*foo.example.com" = false ∨ occursIn "*." "*foo.example.com" = false)
  ∧ lbNameOf "*foo.example.com" = Go.ToLower ("klb." +:+ "*foo.example.com").
Proof.
  exact (conj (or_intror eq_refl) (hostname_kept "*foo.example.com" (or_intror eq_refl))).
Defined.
